(** * Student Management System (app.py): storage layer and Streamlit views

    A shallow embedding of [app.py].  The SQLite table [students] is a list
    of rows kept in rowid order, the Streamlit page is the list of elements
    rendered so far, and every function of the script is a computation over
    a [world] that holds both. *)

From Stdlib Require Import ZArith List Bool Lia Ascii String.
From Stdlib Require Import DecimalString DecimalZ Permutation Sorted.
Import ListNotations.

Local Open Scope string_scope.
Local Open Scope Z_scope.

(** ** Python primitives used by the script *)

Module Py.

(** [str(n)] for an [int]: decimal digits, a leading minus sign for
    negative numbers. *)
Definition str (n : Z) : string := NilZero.string_of_int (Z.to_int n).

Definition is_digit (c : ascii) : bool :=
  ((48 <=? nat_of_ascii c) && (nat_of_ascii c <=? 57))%nat.

(** The blanks [int()] skips around the digits of an ASCII string: tab,
    newline, vertical tab, form feed, carriage return and space. *)
Definition is_space (c : ascii) : bool :=
  let n := nat_of_ascii c in
  (((9 <=? n) && (n <=? 13)) || (n =? 32))%nat.

Fixpoint lstrip (s : string) : string :=
  match s with
  | String c s' => if is_space c then lstrip s' else s
  | EmptyString => EmptyString
  end.

Fixpoint rstrip (s : string) : string :=
  match s with
  | String c s' =>
      match rstrip s' with
      | EmptyString => if is_space c then EmptyString else String c EmptyString
      | r => String c r
      end
  | EmptyString => EmptyString
  end.

Definition strip (s : string) : string := rstrip (lstrip s).

(** The digit part of an integer literal: digits, with single underscores
    allowed between two digits.  Returns the digits without underscores. *)
Fixpoint literal_digits (after_digit : bool) (s : string) : option string :=
  match s with
  | EmptyString => if after_digit then Some EmptyString else None
  | String c s' =>
      if is_digit c then option_map (String c) (literal_digits true s')
      else if Ascii.eqb c "_" then
        if after_digit then literal_digits false s' else None
      else None
  end.

(** [int(s)] for a [str]; [None] stands for [ValueError]. *)
Definition int (s : string) : option Z :=
  match strip s with
  | EmptyString => None
  | String c body as t =>
      let '(negative, digits) :=
        if Ascii.eqb c "-" then (true, body)
        else if Ascii.eqb c "+" then (false, body)
        else (false, t) in
      match literal_digits false digits with
      | Some ds =>
          match NilEmpty.uint_of_string ds with
          | Some d => Some (if negative then - Z.of_uint d else Z.of_uint d)
          | None => None
          end
      | None => None
      end
  end.

(** [s.split(sep)] for a non-empty [sep]: the pieces between the leftmost
    non-overlapping occurrences of [sep].  [skip] counts the characters of
    an occurrence already matched that are still to be dropped. *)
Fixpoint split_from (sep : string) (skip : nat) (s : string) : list string :=
  match s with
  | EmptyString => [EmptyString]
  | String c s' =>
      match skip with
      | S k => split_from sep k s'
      | O =>
          if prefix sep s
          then EmptyString :: split_from sep (String.length sep - 1) s'
          else match split_from sep 0 s' with
               | piece :: pieces => String c piece :: pieces
               | [] => [String c EmptyString]
               end
      end
  end.

Definition split (sep s : string) : list string := split_from sep 0 s.

(** Truth value of a [str] and of an [int] in a condition. *)
Definition truthy_str (s : string) : bool := negb (String.eqb s EmptyString).
Definition truthy_int (n : Z) : bool := negb (n =? 0).

End Py.

(** ** Data model *)

(** One row of [students].  [name], [email] and [phone] are [TEXT NOT NULL];
    [age] is a nullable [INTEGER]; [created_at] is filled by the engine. *)
Record row : Type := mkRow {
  row_id : Z;
  row_name : string;
  row_email : string;
  row_phone : string;
  row_age : option Z;
  row_created_at : Z
}.

(** The tuple a [SELECT id, name, email, phone, age] cursor yields. *)
Definition record : Type := (Z * string * string * string * option Z)%type.

Definition columns_of (r : row) : record :=
  (row_id r, row_name r, row_email r, row_phone r, row_age r).

Definition id_and_name (r : row) : Z * string := (row_id r, row_name r).

(** [pd.DataFrame(records, columns=[...])]. *)
Record DataFrame : Type := mkDataFrame {
  df_columns : list string;
  df_records : list record
}.

Definition len (df : DataFrame) : Z := Z.of_nat (List.length (df_records df)).

(** What a Streamlit call puts on the page. *)
Inductive element : Type :=
| Title (text : string)
| Markdown (text : string)
| Header (text : string)
| Success (text : string)
| Error (text : string)
| Info (text : string)
| Warning (text : string)
| Dataframe (df : DataFrame)
| TextInput (label value : string)
| NumberInput (label : string) (value : option Z)
| Selectbox (label : string) (options : list string)
| Radio (label : string) (options : list string)
| FormSubmitButton (label : string)
| Button (label : string).

(** The state the script runs in.
    - [students]: the rows of the table, in rowid order;
    - [sqlite_sequence]: the largest rowid AUTOINCREMENT has handed out;
    - [current_timestamp]: the engine's clock, read by [DEFAULT
      CURRENT_TIMESTAMP];
    - [faults]: for each statement still to come, the exception the engine
      raises on it, if any (I/O error, locked file, value out of range ...);
      statements beyond the end of the list run normally;
    - [connections]: how many times [get_connection] has been called;
    - [screen]: the elements rendered so far. *)
Record world : Type := mkWorld {
  students : list row;
  sqlite_sequence : Z;
  current_timestamp : Z;
  faults : list (option string);
  connections : nat;
  screen : list element
}.

Definition with_students (rows : list row) (w : world) : world :=
  mkWorld rows (sqlite_sequence w) (current_timestamp w) (faults w)
          (connections w) (screen w).

Definition with_sequence (n : Z) (w : world) : world :=
  mkWorld (students w) n (current_timestamp w) (faults w)
          (connections w) (screen w).

Definition with_faults (fs : list (option string)) (w : world) : world :=
  mkWorld (students w) (sqlite_sequence w) (current_timestamp w) fs
          (connections w) (screen w).

Definition with_connections (n : nat) (w : world) : world :=
  mkWorld (students w) (sqlite_sequence w) (current_timestamp w) (faults w)
          n (screen w).

Definition with_screen (els : list element) (w : world) : world :=
  mkWorld (students w) (sqlite_sequence w) (current_timestamp w) (faults w)
          (connections w) els.

(** ** Computations over the world *)

Definition M (A : Type) : Type := world -> A * world.

Definition ret {A : Type} (a : A) : M A := fun w => (a, w).

Definition bind {A B : Type} (m : M A) (k : A -> M B) : M B :=
  fun w => let (a, w') := m w in k a w'.

Declare Scope script_scope.
Delimit Scope script_scope with script.
Notation "x <- m ;; k" := (bind m (fun x => k))
  (at level 100, m at next level, right associativity) : script_scope.
Notation "m ;; k" := (bind m (fun _ => k))
  (at level 100, right associativity) : script_scope.
Local Open Scope script_scope.

Definition value_of {A : Type} (m : M A) (w : world) : A := fst (m w).
Definition world_after {A : Type} (m : M A) (w : world) : world := snd (m w).

(** Outcome of a guarded block: the exception text or the value. *)
Inductive attempt (A : Type) : Type :=
| Raised (message : string)
| Returned (a : A).
Arguments Raised {A} message.
Arguments Returned {A} a.

(** *** Streamlit output *)

Definition render (e : element) : M unit :=
  fun w => (tt, with_screen (screen w ++ [e]) w).

Definition st_title (s : string) : M unit := render (Title s).
Definition st_markdown (s : string) : M unit := render (Markdown s).
Definition st_header (s : string) : M unit := render (Header s).
Definition st_success (s : string) : M unit := render (Success s).
Definition st_error (s : string) : M unit := render (Error s).
Definition st_info (s : string) : M unit := render (Info s).
Definition st_warning (s : string) : M unit := render (Warning s).
Definition st_dataframe (df : DataFrame) : M unit := render (Dataframe df).

(** *** The SQLite engine *)

(** The exception the engine raises on the next statement, if any. *)
Definition next_fault : M (option string) :=
  fun w => (hd None (faults w), with_faults (tl (faults w)) w).

(** [healthy n w]: the engine raises on none of the next [n] statements. *)
Definition healthy (n : nat) (w : world) : bool :=
  forallb (fun f => match f with None => true | Some _ => false end)
          (firstn n (faults w)).

Definition has_id (k : Z) (r : row) : bool := row_id r =? k.

Definition ids (rows : list row) : list Z := map row_id rows.

Definition max_rowid (rows : list row) : Z := fold_right Z.max 0 (ids rows).

(** The rowid AUTOINCREMENT gives the next inserted row: one more than the
    largest rowid that is or ever was in the table. *)
Definition next_rowid (w : world) : Z :=
  Z.max (sqlite_sequence w) (max_rowid (students w)) + 1.

(** [INSERT INTO students (name, email, phone, age) VALUES (?, ?, ?, ?)]
    followed by [commit]. *)
Definition sql_insert (name email phone : option string) (age : option Z)
  : M (attempt unit) :=
  f <- next_fault ;;
  match f with
  | Some e => ret (Raised e)
  | None =>
      match name, email, phone with
      | None, _, _ => ret (Raised "NOT NULL constraint failed: students.name")
      | _, None, _ => ret (Raised "NOT NULL constraint failed: students.email")
      | _, _, None => ret (Raised "NOT NULL constraint failed: students.phone")
      | Some n, Some e, Some p =>
          fun w =>
            let k := next_rowid w in
            let r := mkRow k n e p age (current_timestamp w) in
            (Returned tt, with_sequence k (with_students (students w ++ [r]) w))
      end
  end.

(** [SELECT id, name, email, phone, age FROM students] and [fetchall]. *)
Definition sql_select_all : M (attempt (list record)) :=
  f <- next_fault ;;
  match f with
  | Some e => ret (Raised e)
  | None => fun w => (Returned (map columns_of (students w)), w)
  end.

(** [SELECT id, name, email, phone, age FROM students WHERE id = ?] and
    [fetchone]. *)
Definition sql_select_by_id (k : Z) : M (attempt (option record)) :=
  f <- next_fault ;;
  match f with
  | Some e => ret (Raised e)
  | None =>
      fun w => (Returned (option_map columns_of (find (has_id k) (students w))), w)
  end.

(** [ORDER BY name]: text compared byte by byte (the BINARY collation),
    rows with equal names kept in rowid order. *)
Fixpoint insert_by_name (p : Z * string) (l : list (Z * string))
  : list (Z * string) :=
  match l with
  | [] => [p]
  | q :: l' =>
      if String.leb (snd p) (snd q) then p :: l
      else q :: insert_by_name p l'
  end.

Definition order_by_name (l : list (Z * string)) : list (Z * string) :=
  fold_right insert_by_name [] l.

(** [SELECT id, name FROM students ORDER BY name] and [fetchall]. *)
Definition sql_select_ids : M (attempt (list (Z * string))) :=
  f <- next_fault ;;
  match f with
  | Some e => ret (Raised e)
  | None =>
      fun w => (Returned (order_by_name (map id_and_name (students w))), w)
  end.

Definition set_fields (n e p : string) (age : option Z) (r : row) : row :=
  mkRow (row_id r) n e p age (row_created_at r).

(** [UPDATE students SET name = ?, email = ?, phone = ?, age = ? WHERE
    id = ?] followed by [commit].  The NOT NULL constraints are checked on
    the rows the statement changes. *)
Definition sql_update (name email phone : option string) (age : option Z)
  (k : Z) : M (attempt unit) :=
  f <- next_fault ;;
  match f with
  | Some e => ret (Raised e)
  | None =>
      fun w =>
        if existsb (has_id k) (students w) then
          match name, email, phone with
          | None, _, _ =>
              (Raised "NOT NULL constraint failed: students.name", w)
          | _, None, _ =>
              (Raised "NOT NULL constraint failed: students.email", w)
          | _, _, None =>
              (Raised "NOT NULL constraint failed: students.phone", w)
          | Some n, Some e, Some p =>
              (Returned tt,
               with_students
                 (map (fun r => if has_id k r then set_fields n e p age r else r)
                      (students w)) w)
          end
        else (Returned tt, w)
  end.

(** [DELETE FROM students WHERE id = ?] followed by [commit]. *)
Definition sql_delete (k : Z) : M (attempt unit) :=
  f <- next_fault ;;
  match f with
  | Some e => ret (Raised e)
  | None =>
      fun w =>
        (Returned tt,
         with_students (filter (fun r => negb (has_id k r)) (students w)) w)
  end.

(** ** Database functions of the script *)

(** A text argument is [Some s] for a [str] and [None] for [None]; an
    integer argument likewise.  Each function opens a connection, runs its
    statement inside [try], and turns an exception of the engine into an
    error message and its failure value; [finally: conn.close()] has no
    effect on the state modelled here. *)

(** [sqlite3.connect('data.db')], taken to succeed: the script calls it, and
    [conn.cursor()], before each [try], so an exception raised there is not
    caught by the database functions; such runs are outside this model,
    which follows a run from the point where the connection is open. *)
Definition get_connection : M unit :=
  fun w => (tt, with_connections (S (connections w)) w).

Definition insert_student (name email phone : option string) (age : option Z)
  : M bool :=
  get_connection ;;
  r <- sql_insert name email phone age ;;
  match r with
  | Returned _ => st_success "✅ Student added successfully!" ;; ret true
  | Raised e => st_error ("❌ Error adding student: " ++ e) ;; ret false
  end.

Definition view_all_students : M (option DataFrame) :=
  get_connection ;;
  r <- sql_select_all ;;
  match r with
  | Returned records =>
      match records with
      | _ :: _ =>
          ret (Some (mkDataFrame ["ID"; "Name"; "Email"; "Phone"; "Age"] records))
      | [] => ret None
      end
  | Raised e => st_error ("❌ Error retrieving records: " ++ e) ;; ret None
  end.

Definition get_student_by_id (student_id : Z) : M (option record) :=
  get_connection ;;
  r <- sql_select_by_id student_id ;;
  match r with
  | Returned record => ret record
  | Raised e => st_error ("❌ Error retrieving student: " ++ e) ;; ret None
  end.

Definition get_all_student_ids : M (list (Z * string)) :=
  get_connection ;;
  r <- sql_select_ids ;;
  match r with
  | Returned records => ret records
  | Raised e => st_error ("❌ Error retrieving student list: " ++ e) ;; ret []
  end.

Definition update_student (student_id : Z) (name email phone : option string)
  (age : option Z) : M bool :=
  get_connection ;;
  r <- sql_update name email phone age student_id ;;
  match r with
  | Returned _ => st_success "✅ Student updated successfully!" ;; ret true
  | Raised e => st_error ("❌ Error updating student: " ++ e) ;; ret false
  end.

Definition delete_student (student_id : Z) : M bool :=
  get_connection ;;
  r <- sql_delete student_id ;;
  match r with
  | Returned _ => st_success "✅ Student deleted successfully!" ;; ret true
  | Raised e => st_error ("❌ Error deleting student: " ++ e) ;; ret false
  end.

(** [CREATE TABLE IF NOT EXISTS students (...)]; the call is not guarded, so
    an exception of the engine leaves the script. *)
Definition create_table : M (attempt unit) :=
  get_connection ;;
  f <- next_fault ;;
  match f with
  | Some e => ret (Raised e)
  | None => ret (Returned tt)
  end.

(** ** Streamlit views *)

(** How one run of the script ends. *)
Inductive outcome : Type :=
| Finished
| Rerun
| Crashed (exception : string).

Inductive operation : Type := ViewAll | AddStudent | UpdateStudent | DeleteStudent.

(** What the widgets of the Add form return in this run. *)
Record add_form : Type := mkAddForm {
  add_name : string;
  add_email : string;
  add_phone : string;
  add_age : Z;
  add_submit_btn : bool
}.

(** What the widgets of the Update view return in this run: the position
    picked in the selector, the fields of the form, the submit button.  The
    age widget returns [None] while it shows no number. *)
Record update_form : Type := mkUpdateForm {
  upd_choice : nat;
  upd_name : string;
  upd_email : string;
  upd_phone : string;
  upd_age : option Z;
  upd_submit_btn : bool
}.

(** What the widgets of the Delete view return in this run. *)
Record delete_form : Type := mkDeleteForm {
  del_choice : nat;
  del_confirm : bool;
  del_cancel : bool
}.

(** [st.number_input(..., value=v, min_value=lo, max_value=hi)] refuses a
    default outside its bounds: the exception it raises, if any.  [None]
    as default is accepted. *)
Definition number_input_refuses (value : option Z) (lo hi : Z)
  : option string :=
  match value with
  | Some v =>
      if v <? lo then Some "StreamlitValueBelowMinError"
      else if hi <? v then Some "StreamlitValueAboveMaxError"
      else None
  | None => None
  end.

Definition truthy_age (a : option Z) : bool :=
  match a with
  | Some n => Py.truthy_int n
  | None => false
  end.

(** [f"{student[0]} - {student[1]}"]. *)
Definition option_label (student : Z * string) : string :=
  Py.str (fst student) ++ " - " ++ snd student.

(** [int(selected.split(" - ")[0])]. *)
Definition selected_id (selected : string) : option Z :=
  Py.int (hd EmptyString (Py.split " - " selected)).

(** The value of a selectbox: the option at the picked position, the first
    option when nothing valid is picked. *)
Definition st_selectbox (label : string) (options : list string) (choice : nat)
  : M string :=
  render (Selectbox label options) ;;
  ret (nth choice options (hd EmptyString options)).

Definition view_all_page : M outcome :=
  st_header "View All Students" ;;
  df <- view_all_students ;;
  match df with
  | Some d =>
      st_dataframe d ;;
      st_info ("Total Students: " ++ Py.str (len d)) ;;
      ret Finished
  | None =>
      st_info "📭 No students found in the database." ;;
      ret Finished
  end.

Definition add_student_page (ui : add_form) : M outcome :=
  st_header "Add New Student" ;;
  render (TextInput "Full Name" EmptyString) ;;
  render (TextInput "Email" EmptyString) ;;
  render (TextInput "Phone Number" EmptyString) ;;
  render (NumberInput "Age" (Some 1)) ;;
  render (FormSubmitButton "➕ Add Student") ;;
  if add_submit_btn ui then
    if Py.truthy_str (add_name ui) && Py.truthy_str (add_email ui)
       && Py.truthy_str (add_phone ui) && Py.truthy_int (add_age ui)
    then
      insert_student (Some (add_name ui)) (Some (add_email ui))
                     (Some (add_phone ui)) (Some (add_age ui)) ;;
      ret Finished
    else
      st_error "❌ Please fill in all fields!" ;;
      ret Finished
  else ret Finished.

Definition update_student_page (ui : update_form) : M outcome :=
  st_header "Update Student Record" ;;
  students <- get_all_student_ids ;;
  match students with
  | _ :: _ =>
      selected <- st_selectbox "Select Student to Update"
                               (map option_label students) (upd_choice ui) ;;
      match selected_id selected with
      | None => ret (Crashed "ValueError")
      | Some student_id =>
          student <- get_student_by_id student_id ;;
          match student with
          | Some (_, name, email, phone, age) =>
              st_info ("Editing: " ++ name) ;;
              render (TextInput "Full Name" name) ;;
              render (TextInput "Email" email) ;;
              render (TextInput "Phone Number" phone) ;;
              match number_input_refuses age 1 100 with
              | Some exception => ret (Crashed exception)
              | None =>
                  render (NumberInput "Age" age) ;;
                  render (FormSubmitButton "✏️ Update Student") ;;
                  if upd_submit_btn ui then
                    if Py.truthy_str (upd_name ui)
                       && Py.truthy_str (upd_email ui)
                       && Py.truthy_str (upd_phone ui)
                       && truthy_age (upd_age ui)
                    then
                      update_student student_id (Some (upd_name ui))
                                     (Some (upd_email ui))
                                     (Some (upd_phone ui)) (upd_age ui) ;;
                      ret Finished
                    else
                      st_error "❌ Please fill in all fields!" ;;
                      ret Finished
                  else ret Finished
              end
          | None => ret Finished
          end
      end
  | [] =>
      st_info "📭 No students found. Please add a student first." ;;
      ret Finished
  end.

Definition delete_student_page (ui : delete_form) : M outcome :=
  st_header "Delete Student Record" ;;
  students <- get_all_student_ids ;;
  match students with
  | _ :: _ =>
      selected <- st_selectbox "Select Student to Delete"
                               (map option_label students) (del_choice ui) ;;
      match selected_id selected with
      | None => ret (Crashed "ValueError")
      | Some student_id =>
          student <- get_student_by_id student_id ;;
          match student with
          | Some (_, name, _, _, _) =>
              st_warning ("⚠️ Are you sure you want to delete: **" ++ name ++ "**?") ;;
              render (Button "🗑️ Confirm Delete") ;;
              if del_confirm ui then
                delete_student student_id ;;
                ret Rerun
              else
                render (Button "❌ Cancel") ;;
                if del_cancel ui then
                  st_info "Deletion cancelled." ;;
                  ret Finished
                else ret Finished
          | None => ret Finished
          end
      end
  | [] =>
      st_info "📭 No students found. Please add a student first." ;;
      ret Finished
  end.

(** What the widgets of the whole page return in one run. *)
Record widgets : Type := mkWidgets {
  nav : operation;
  on_add : add_form;
  on_update : update_form;
  on_delete : delete_form
}.

Definition navigation : list string :=
  ["📖 View All"; "➕ Add Student"; "✏️ Update Student"; "🗑️ Delete Student"].

Definition dquote : string := String (ascii_of_nat 34) EmptyString.

Definition newline : string := String (ascii_of_nat 10) EmptyString.

Definition footer : string :=
  newline
  ++ "<div style=" ++ dquote
  ++ "text-align: center; color: gray; font-size: 12px;" ++ dquote ++ ">"
  ++ newline
  ++ "    <p>Student Management System v1.0 | Powered by Streamlit & SQLite3</p>"
  ++ newline ++ "</div>" ++ newline.

(** One run of the script, top to bottom. *)
Definition script (ui : widgets) : M outcome :=
  created <- create_table ;;
  match created with
  | Raised e => ret (Crashed e)
  | Returned _ =>
      st_title "📚 Student Management System" ;;
      st_markdown "---" ;;
      st_title "Navigation" ;;
      render (Radio "Select Operation" navigation) ;;
      end_of_view <-
        match nav ui with
        | ViewAll => view_all_page
        | AddStudent => add_student_page (on_add ui)
        | UpdateStudent => update_student_page (on_update ui)
        | DeleteStudent => delete_student_page (on_delete ui)
        end ;;
      match end_of_view with
      | Finished => st_markdown "---" ;; st_markdown footer ;; ret Finished
      | stopped => ret stopped
      end
  end.

(** ** Vocabulary of the statements *)

(** Every character of [s] passes the test [P]. *)
Fixpoint all_chars (P : ascii -> bool) (s : string) : bool :=
  match s with
  | EmptyString => true
  | String c s' => P c && all_chars P s'
  end.

Definition not_space (c : ascii) : bool := negb (Ascii.eqb c " ").

(** The records a caller sees in the result of [view_all_students]. *)
Definition listed (result : option DataFrame) : list record :=
  match result with
  | Some df => df_records df
  | None => []
  end.

(** Order of two [(id, name)] pairs by name, bytes compared. *)
Definition name_le (p q : Z * string) : Prop :=
  String.leb (snd p) (snd q) = true.

(** All four fields of the Add form hold a value Python counts as true. *)
Definition filled (ui : add_form) : Prop :=
  add_name ui <> EmptyString /\ add_email ui <> EmptyString /\
  add_phone ui <> EmptyString /\ add_age ui <> 0.

(** The widgets the Add view draws before it looks at the submit button. *)
Definition add_form_widgets : list element :=
  [Header "Add New Student"; TextInput "Full Name" EmptyString;
   TextInput "Email" EmptyString; TextInput "Phone Number" EmptyString;
   NumberInput "Age" (Some 1);
   FormSubmitButton "➕ Add Student"].

(** The message a failed statement leaves on the page under [prefix]. *)
Definition failure_note (prefix : string) (fault : option string)
  : list element :=
  match fault with
  | Some e => [Error (prefix ++ e)]
  | None => []
  end.

Definition no_students_info : element :=
  Info "📭 No students found. Please add a student first.".

(** [new] is [old] after an update of row [id]: same id and creation time;
    the four other fields are the given ones when the row is row [id], and
    the row is untouched otherwise. *)
Definition updated_row (id : Z) (name email phone : string) (age : option Z)
  (old new : row) : Prop :=
  row_id new = row_id old /\ row_created_at new = row_created_at old /\
  if row_id old =? id
  then row_name new = name /\ row_email new = email /\
       row_phone new = phone /\ row_age new = age
  else new = old.

(** *** Sample states *)

Definition ada : row :=
  mkRow 1 "Ada Lovelace" "ada@example.com" "555-0100" (Some 36) 1700000000.

Definition zoe : row :=
  mkRow 2 "Zoe" "zoe@example.com" "555-0101" None 1700000060.

Definition bob : row :=
  mkRow 5 "Bob" "bob@example.com" "555-0102" (Some 41) 1700000120.

(** A submitted Add form whose email field was left empty. *)
Definition no_email_form : add_form :=
  mkAddForm "Cy" EmptyString "555-0103" 19 true.

(** An empty table behind a working engine. *)
Definition no_rows : world := mkWorld [] 0 1700000000 [] 0 [].

(** Three rows behind a working engine; rowid 4 was used and deleted. *)
Definition three_rows : world :=
  mkWorld [ada; zoe; bob] 5 1700000200 [] 0 [].

(** The same state when the engine raises on the next statement. *)
Definition failing (w : world) : world :=
  with_faults [Some "disk I/O error"] w.

(** *** Vocabulary of the further properties *)

(** The shape SQLite keeps the table in: rows in strictly increasing rowid
    order (so no two rows share an id), none above the AUTOINCREMENT mark. *)
Definition well_formed (w : world) : Prop :=
  StronglySorted Z.lt (ids (students w)) /\
  Forall (fun k => k <= sqlite_sequence w) (ids (students w)).

(** A computation that keeps the table well formed, whatever it returns. *)
Definition preserves {A : Type} (m : M A) : Prop :=
  forall w, well_formed w -> well_formed (world_after m w).

(** A computation that leaves the rows and the AUTOINCREMENT mark alone. *)
Definition read_only {A : Type} (m : M A) : Prop :=
  forall w, students (world_after m w) = students w /\
            sqlite_sequence (world_after m w) = sqlite_sequence w.

(** The entries the selector of the Update and Delete views is built from,
    and the entry at the picked position. *)
Definition listing (w : world) : list (Z * string) :=
  order_by_name (map id_and_name (students w)).

Definition picked (choice : nat) (w : world) : Z * string :=
  nth choice (listing w) (0, EmptyString).

(** A stored age the age widget of the Update form accepts as its default:
    no age, or one from 1 to 100. *)
Definition age_in_range (a : option Z) : Prop :=
  match a with
  | Some n => 1 <= n <= 100
  | None => True
  end.




(** All four fields of the Update form hold a value Python counts as true. *)
Definition upd_filled (ui : update_form) : Prop :=
  upd_name ui <> EmptyString /\ upd_email ui <> EmptyString /\
  upd_phone ui <> EmptyString /\
  exists n, upd_age ui = Some n /\ n <> 0.

(** No button that writes to the table is pressed with valid input in the
    view the navigation shows. *)
Definition idle (ui : widgets) : Prop :=
  match nav ui with
  | ViewAll => True
  | AddStudent => add_submit_btn (on_add ui) = false \/ ~ filled (on_add ui)
  | UpdateStudent =>
      upd_submit_btn (on_update ui) = false \/ ~ upd_filled (on_update ui)
  | DeleteStudent => del_confirm (on_delete ui) = false
  end.

(** [sep.join(pieces)]. *)
Fixpoint join (sep : string) (pieces : list string) : string :=
  match pieces with
  | [] => EmptyString
  | [piece] => piece
  | piece :: rest => piece ++ sep ++ join sep rest
  end.

(** What the View All page adds below its header. *)
Definition view_all_body (w : world) : list element :=
  match hd None (faults w) with
  | Some e =>
      [Error ("❌ Error retrieving records: " ++ e);
       Info "📭 No students found in the database."]
  | None =>
      match students w with
      | [] => [Info "📭 No students found in the database."]
      | _ :: _ =>
          [Dataframe (mkDataFrame ["ID"; "Name"; "Email"; "Phone"; "Age"]
                                  (map columns_of (students w)));
           Info ("Total Students: "
                 ++ Py.str (Z.of_nat (List.length (students w))))]
      end
  end.

(** A filled and submitted Update form, a confirmed Delete form. *)
Definition rename_form : update_form :=
  mkUpdateForm 2 "Zoe Q" "zq@example.com" "555-0199" (Some 22) true.

Definition confirm_form : delete_form := mkDeleteForm 1 true false.

Definition idle_widgets : widgets :=
  mkWidgets DeleteStudent no_email_form rename_form (mkDeleteForm 1 false true).

(** * Properties *)

(** ** The model on small inputs *)

Example str_42 : Py.str 42 = "42". Proof. reflexivity. Qed.
Example str_0 : Py.str 0 = "0". Proof. reflexivity. Qed.
Example str_neg : Py.str (-17) = "-17". Proof. reflexivity. Qed.
Example int_padded : Py.int "  +1_000 " = Some 1000. Proof. reflexivity. Qed.
Example int_bad : Py.int "1__0" = None. Proof. reflexivity. Qed.
Example int_empty : Py.int " " = None. Proof. reflexivity. Qed.
Example split_three :
  Py.split " - " "3 - Ann - Marie" = ["3"; "Ann"; "Marie"].
Proof. reflexivity. Qed.
Example split_none : Py.split " - " "abc" = ["abc"].
Proof. reflexivity. Qed.
Example split_overlap : Py.split "aa" "aaa" = [EmptyString; "a"].
Proof. reflexivity. Qed.


(** The scenario of the specification: add Ada, list, raise her age, read
    her back, delete her, list again. *)
Example ada_scenario :
  value_of
    (insert_student (Some "Ada Lovelace") (Some "ada@example.com")
                    (Some "555-0100") (Some 36) ;;
     first <- view_all_students ;;
     update_student 1 (Some "Ada Lovelace") (Some "ada@example.com")
                    (Some "555-0100") (Some 37) ;;
     read <- get_student_by_id 1 ;;
     delete_student 1 ;;
     last <- view_all_students ;;
     ret (listed first, read, last))
    no_rows
  = ([(1, "Ada Lovelace", "ada@example.com", "555-0100", Some 36)],
     Some (1, "Ada Lovelace", "ada@example.com", "555-0100", Some 37),
     None).
Proof. reflexivity. Qed.

(** A deleted rowid is not handed out again, and a failed statement leaves
    the table alone. *)
Example rowid_not_reused :
  ids (students (world_after (delete_student 5 ;;
                              insert_student (Some "Cy") (Some "c") (Some "p") None)
                             three_rows))
  = [1; 2; 6].
Proof. reflexivity. Qed.

Example failed_insert :
  insert_student (Some "Cy") (Some "c") (Some "p") None (failing no_rows)
  = (false,
     mkWorld [] 0 1700000000 [] 1
             [Error "❌ Error adding student: disk I/O error"]).
Proof. reflexivity. Qed.

Example null_name_rejected :
  value_of (insert_student None (Some "c") (Some "p") None) no_rows = false.
Proof. reflexivity. Qed.

Example delete_confirmed :
  value_of (script (mkWidgets DeleteStudent no_email_form
                      (mkUpdateForm 0 "Zoe" "z" "5" None false)
                      (mkDeleteForm 1 true false))) three_rows
  = Rerun /\
  ids (students
         (world_after (script (mkWidgets DeleteStudent no_email_form
                                 (mkUpdateForm 0 "Zoe" "z" "5" None false)
                                 (mkDeleteForm 1 true false))) three_rows))
  = [1; 2].
Proof. split; reflexivity. Qed.

(** ** The selector encoding *)

Section Selector.

Lemma all_chars_impl (P Q : ascii -> bool) (s : string) :
  (forall c, P c = true -> Q c = true) ->
  all_chars P s = true -> all_chars Q s = true.
Proof.
  intros HPQ. induction s as [|c s IH]; simpl; trivial.
  rewrite !andb_true_iff. intros [Hc Hs]. auto.
Qed.

Lemma digit_facts (c : ascii) :
  Py.is_digit c = true ->
  Py.is_space c = false /\ not_space c = true /\
  Ascii.eqb c "-" = false /\ Ascii.eqb c "+" = false.
Proof.
  destruct c as [b0 b1 b2 b3 b4 b5 b6 b7].
  destruct b0, b1, b2, b3, b4, b5, b6, b7; intros H;
    try discriminate H; repeat split.
Qed.

Lemma uint_digits (d : Decimal.uint) :
  all_chars Py.is_digit (NilEmpty.string_of_uint d) = true.
Proof. induction d; simpl; trivial. Qed.

Lemma nilzero_digits (d : Decimal.uint) :
  all_chars Py.is_digit (NilZero.string_of_uint d) = true /\
  NilZero.string_of_uint d <> EmptyString.
Proof.
  destruct d; simpl; split; try discriminate; trivial;
    apply (uint_digits d).
Qed.

Lemma nilzero_parse (d : Decimal.uint) :
  exists d', NilEmpty.uint_of_string (NilZero.string_of_uint d) = Some d' /\
             Z.of_uint d' = Z.of_uint d.
Proof.
  destruct d;
    try (eexists; split; [apply (NilEmpty.usu (_ d)) | reflexivity]).
  exists (Decimal.D0 Decimal.Nil). split; reflexivity.
Qed.

Lemma lstrip_id (s : string) :
  all_chars (fun c => negb (Py.is_space c)) s = true -> Py.lstrip s = s.
Proof.
  destruct s as [|c s]; simpl; trivial.
  rewrite andb_true_iff, negb_true_iff. intros [-> _]. reflexivity.
Qed.

Lemma rstrip_id (s : string) :
  all_chars (fun c => negb (Py.is_space c)) s = true -> Py.rstrip s = s.
Proof.
  induction s as [|c s IH]; simpl; trivial.
  rewrite andb_true_iff, negb_true_iff. intros [Hc Hs].
  rewrite (IH Hs), Hc. destruct s; reflexivity.
Qed.

Lemma strip_id (s : string) :
  all_chars (fun c => negb (Py.is_space c)) s = true -> Py.strip s = s.
Proof.
  intros H. unfold Py.strip. rewrite (lstrip_id s H). apply rstrip_id, H.
Qed.

Lemma literal_digits_after (s : string) :
  all_chars Py.is_digit s = true -> Py.literal_digits true s = Some s.
Proof.
  induction s as [|c s IH]; simpl; trivial.
  rewrite andb_true_iff. intros [-> Hs]. rewrite (IH Hs). reflexivity.
Qed.

Lemma literal_digits_start (s : string) :
  all_chars Py.is_digit s = true -> s <> EmptyString ->
  Py.literal_digits false s = Some s.
Proof.
  destruct s as [|c s]; [congruence|]. simpl.
  rewrite andb_true_iff. intros [-> Hs] _.
  rewrite (literal_digits_after s Hs). reflexivity.
Qed.

Lemma digits_no_space (s : string) :
  all_chars Py.is_digit s = true ->
  all_chars (fun c => negb (Py.is_space c)) s = true.
Proof.
  apply all_chars_impl. intros c Hc.
  destruct (digit_facts c Hc) as [-> _]. reflexivity.
Qed.

(** [int] undoes [str] on unsigned digit strings. *)
Lemma int_of_digits (d : Decimal.uint) :
  Py.int (NilZero.string_of_uint d) = Some (Z.of_uint d).
Proof.
  destruct (nilzero_digits d) as [Hdig Hne].
  destruct (nilzero_parse d) as [d' [Hparse Hval]].
  unfold Py.int. rewrite (strip_id _ (digits_no_space _ Hdig)).
  destruct (NilZero.string_of_uint d) as [|c body] eqn:E; [congruence|].
  assert (Hc : Py.is_digit c = true)
    by (simpl in Hdig; apply andb_true_iff in Hdig; tauto).
  destruct (digit_facts c Hc) as [_ [_ [-> ->]]].
  rewrite (literal_digits_start _ Hdig) by discriminate.
  rewrite Hparse, Hval. reflexivity.
Qed.

(** [int(str(n)) == n] for every integer. *)
Lemma int_str (n : Z) : Py.int (Py.str n) = Some n.
Proof.
  unfold Py.str. rewrite <- (DecimalZ.of_to n) at 2.
  destruct (Z.to_int n) as [d|d]; simpl NilZero.string_of_int.
  - apply int_of_digits.
  - destruct (nilzero_digits d) as [Hdig Hne].
    destruct (nilzero_parse d) as [d' [Hparse Hval]].
    unfold Py.int. rewrite strip_id.
    + change (Ascii.eqb "-" "-") with true. cbv iota beta.
      rewrite (literal_digits_start _ Hdig Hne), Hparse, Hval. reflexivity.
    + simpl. apply digits_no_space, Hdig.
Qed.

Lemma str_no_space (n : Z) : all_chars not_space (Py.str n) = true.
Proof.
  assert (Hd : forall d, all_chars not_space (NilZero.string_of_uint d) = true).
  { intros d. apply (all_chars_impl Py.is_digit).
    - intros c Hc. apply (digit_facts c Hc).
    - apply nilzero_digits. }
  unfold Py.str. destruct (Z.to_int n) as [d|d]; simpl; auto.
Qed.

Lemma split_from_step (sep : string) (c : ascii) (s : string) :
  Py.split_from sep 0 (String c s) =
  if prefix sep (String c s)
  then EmptyString :: Py.split_from sep (String.length sep - 1) s
  else match Py.split_from sep 0 s with
       | piece :: pieces => String c piece :: pieces
       | [] => [String c EmptyString]
       end.
Proof. reflexivity. Qed.

Lemma prefix_separator (b : string) : prefix " - " (" - " ++ b) = true.
Proof. destruct b; reflexivity. Qed.

(** Splitting at [" - "] cuts right after a prefix without spaces. *)
Lemma split_after_prefix (a b : string) :
  all_chars not_space a = true ->
  Py.split " - " (a ++ " - " ++ b) = a :: Py.split " - " b.
Proof.
  unfold Py.split. induction a as [|c a IH]; intros Ha.
  - change (EmptyString ++ " - " ++ b) with (String " " ("- " ++ b)).
    rewrite split_from_step.
    change (String " " ("- " ++ b)) with (" - " ++ b).
    rewrite prefix_separator. reflexivity.
  - simpl in Ha. apply andb_true_iff in Ha. destruct Ha as [Hc Ha].
    change (String c a ++ " - " ++ b) with (String c (a ++ " - " ++ b)).
    rewrite split_from_step, (IH Ha).
    replace (prefix " - " (String c (a ++ " - " ++ b))) with false; trivial.
    cbn [prefix]. destruct (ascii_dec " " c) as [<-|_]; [discriminate Hc|].
    reflexivity.
Qed.

End Selector.

(** C6: for every integer id and every name, the display string
    "<id> - <name>" built by the Update and Delete views, split on " - " and
    its first piece parsed as an integer, gives back exactly the id; the
    first piece is the decimal text of the id whatever the name contains. *)
Theorem selector_round_trip (id : Z) (name : string) :
  hd EmptyString (Py.split " - " (option_label (id, name))) = Py.str id /\
  selected_id (option_label (id, name)) = Some id.
Proof.
  assert (Hcut : hd EmptyString (Py.split " - " (option_label (id, name)))
                 = Py.str id).
  { unfold option_label. cbn [fst snd].
    rewrite split_after_prefix by apply str_no_space. reflexivity. }
  split; [exact Hcut|].
  unfold selected_id. rewrite Hcut. apply int_str.
Qed.

(** ** The storage layer *)

Ltac run :=
  cbv [insert_student view_all_students get_student_by_id get_all_student_ids
       update_student delete_student get_connection sql_insert sql_select_all
       sql_select_by_id sql_select_ids sql_update sql_delete next_fault
       st_success st_error render bind ret value_of world_after];
  cbn [faults students sqlite_sequence current_timestamp connections screen
       with_students with_sequence with_faults with_connections with_screen
       fst snd].

Section Storage.

Lemma healthy_head (n : nat) (w : world) :
  healthy (S n) w = true -> hd None (faults w) = None.
Proof.
  unfold healthy. destruct (faults w) as [|[e|] fs]; simpl; trivial.
  discriminate.
Qed.

Lemma healthy_tail (n : nat) (w w' : world) :
  healthy (S n) w = true -> faults w' = tl (faults w) -> healthy n w' = true.
Proof.
  unfold healthy. intros H ->. destruct (faults w) as [|[e|] fs]; simpl in *.
  - destruct n; reflexivity.
  - discriminate.
  - exact H.
Qed.

Lemma find_none_iff (k : Z) (rows : list row) :
  find (has_id k) rows = None <-> ~ In k (ids rows).
Proof.
  unfold ids, has_id. induction rows as [|r rows IH]; simpl.
  - tauto.
  - destruct (Z.eqb_spec (row_id r) k) as [E|E].
    + split; [discriminate|]. intros H. exfalso. auto.
    + rewrite IH. tauto.
Qed.

Lemma existsb_has_id (k : Z) (rows : list row) :
  existsb (has_id k) rows = true <-> In k (ids rows).
Proof.
  unfold ids. rewrite existsb_exists, in_map_iff. unfold has_id.
  split; intros [r H]; exists r; rewrite Z.eqb_eq in *; tauto.
Qed.

Lemma max_rowid_bound (rows : list row) (k : Z) :
  In k (ids rows) -> k <= max_rowid rows.
Proof.
  unfold max_rowid, ids. induction rows as [|r rows IH]; simpl.
  - tauto.
  - intros [<-|H]; [|specialize (IH H)]; lia.
Qed.

(** The id AUTOINCREMENT picks is not in the table. *)
Lemma next_rowid_fresh (w : world) : ~ In (next_rowid w) (ids (students w)).
Proof.
  intros H. apply max_rowid_bound in H. unfold next_rowid in H. lia.
Qed.

(** What each database function does when the engine runs the statement,
    and what it does when the engine raises [e]. *)

Lemma insert_student_runs (w : world) (n e p : string) (a : option Z) :
  hd None (faults w) = None ->
  insert_student (Some n) (Some e) (Some p) a w =
  (true,
   mkWorld (students w ++ [mkRow (next_rowid w) n e p a (current_timestamp w)])
           (next_rowid w) (current_timestamp w) (tl (faults w))
           (S (connections w))
           (screen w ++ [Success "✅ Student added successfully!"])).
Proof. intros H. run. rewrite H. reflexivity. Qed.

Lemma view_all_students_runs (w : world) :
  hd None (faults w) = None ->
  listed (value_of view_all_students w) = map columns_of (students w) /\
  (value_of view_all_students w = None <-> students w = []) /\
  students (world_after view_all_students w) = students w /\
  screen (world_after view_all_students w) = screen w.
Proof.
  destruct w as [rows seq now fs c scr]. cbn [faults]. intros H.
  run. rewrite H. run.
  destruct rows as [|r rows]; cbn; repeat split; congruence.
Qed.

Lemma view_all_students_fails (w : world) (e : string) :
  hd None (faults w) = Some e ->
  view_all_students w =
  (None,
   mkWorld (students w) (sqlite_sequence w) (current_timestamp w)
           (tl (faults w)) (S (connections w))
           (screen w ++ [Error ("❌ Error retrieving records: " ++ e)])).
Proof. intros H. run. rewrite H. reflexivity. Qed.

Lemma get_student_by_id_runs (w : world) (k : Z) :
  hd None (faults w) = None ->
  get_student_by_id k w =
  (option_map columns_of (find (has_id k) (students w)),
   mkWorld (students w) (sqlite_sequence w) (current_timestamp w)
           (tl (faults w)) (S (connections w)) (screen w)).
Proof. intros H. run. rewrite H. reflexivity. Qed.

Lemma get_student_by_id_fails (w : world) (k : Z) (e : string) :
  hd None (faults w) = Some e ->
  get_student_by_id k w =
  (None,
   mkWorld (students w) (sqlite_sequence w) (current_timestamp w)
           (tl (faults w)) (S (connections w))
           (screen w ++ [Error ("❌ Error retrieving student: " ++ e)])).
Proof. intros H. run. rewrite H. reflexivity. Qed.

Lemma get_all_student_ids_runs (w : world) :
  hd None (faults w) = None ->
  get_all_student_ids w =
  (order_by_name (map id_and_name (students w)),
   mkWorld (students w) (sqlite_sequence w) (current_timestamp w)
           (tl (faults w)) (S (connections w)) (screen w)).
Proof. intros H. run. rewrite H. reflexivity. Qed.

Lemma get_all_student_ids_fails (w : world) (e : string) :
  hd None (faults w) = Some e ->
  get_all_student_ids w =
  ([],
   mkWorld (students w) (sqlite_sequence w) (current_timestamp w)
           (tl (faults w)) (S (connections w))
           (screen w ++ [Error ("❌ Error retrieving student list: " ++ e)])).
Proof. intros H. run. rewrite H. reflexivity. Qed.

Lemma update_student_runs (w : world) (k : Z) (n e p : string) (a : option Z) :
  hd None (faults w) = None ->
  update_student k (Some n) (Some e) (Some p) a w =
  (true,
   mkWorld (map (fun r => if has_id k r then set_fields n e p a r else r)
                (students w))
           (sqlite_sequence w) (current_timestamp w) (tl (faults w))
           (S (connections w))
           (screen w ++ [Success "✅ Student updated successfully!"])).
Proof.
  destruct w as [rows seq now fs c scr]. cbn [faults]. intros H.
  run. rewrite H. run.
  destruct (existsb (has_id k) rows) eqn:E; [reflexivity|].
  assert (Hsame : map (fun r => if has_id k r then set_fields n e p a r else r)
                      rows = rows).
  { rewrite <- (map_id rows) at 2. apply map_ext_in. intros r Hr.
    destruct (has_id k r) eqn:Hk; trivial.
    assert (existsb (has_id k) rows = true) by (apply existsb_exists; eauto).
    congruence. }
  rewrite Hsame. reflexivity.
Qed.

Lemma update_student_missing (w : world) (k : Z) (n e p : option string)
  (a : option Z) :
  hd None (faults w) = None -> ~ In k (ids (students w)) ->
  update_student k n e p a w =
  (true,
   mkWorld (students w) (sqlite_sequence w) (current_timestamp w)
           (tl (faults w)) (S (connections w))
           (screen w ++ [Success "✅ Student updated successfully!"])).
Proof.
  destruct w as [rows seq now fs c scr]. cbn [faults students]. intros H Hk.
  run. rewrite H. run.
  destruct (existsb (has_id k) rows) eqn:E.
  - apply existsb_has_id in E. contradiction.
  - reflexivity.
Qed.

Lemma delete_student_runs (w : world) (k : Z) :
  hd None (faults w) = None ->
  delete_student k w =
  (true,
   mkWorld (filter (fun r => negb (has_id k r)) (students w))
           (sqlite_sequence w) (current_timestamp w) (tl (faults w))
           (S (connections w))
           (screen w ++ [Success "✅ Student deleted successfully!"])).
Proof. intros H. run. rewrite H. reflexivity. Qed.

Lemma filter_missing (k : Z) (rows : list row) :
  ~ In k (ids rows) -> filter (fun r => negb (has_id k r)) rows = rows.
Proof.
  unfold ids, has_id. induction rows as [|r rows IH]; simpl; trivial.
  intros H. destruct (Z.eqb_spec (row_id r) k) as [E|E]; simpl.
  - exfalso. auto.
  - f_equal. apply IH. tauto.
Qed.

End Storage.

(** C2: for an id that is not in the table, [update_student] and
    [delete_student] (the engine running the statement) change no row,
    return [True] and report success on the page. *)
Theorem missing_id_is_silent_success (w : world) (id : Z)
  (name email phone : option string) (age : option Z) :
  healthy 1 w = true ->
  ~ In id (ids (students w)) ->
  value_of (update_student id name email phone age) w = true /\
  students (world_after (update_student id name email phone age) w)
  = students w /\
  screen (world_after (update_student id name email phone age) w)
  = (screen w ++ [Success "✅ Student updated successfully!"])%list /\
  value_of (delete_student id) w = true /\
  students (world_after (delete_student id) w) = students w /\
  screen (world_after (delete_student id) w)
  = (screen w ++ [Success "✅ Student deleted successfully!"])%list.
Proof.
  intros Hw Hid. apply healthy_head in Hw.
  unfold value_of, world_after.
  rewrite (update_student_missing w id name email phone age Hw Hid).
  rewrite (delete_student_runs w id Hw). cbn [fst snd students screen].
  rewrite (filter_missing id (students w) Hid). repeat split.
Qed.

Lemma missing_id_is_silent_success_witness :
  healthy 1 three_rows = true /\ ~ In 4 (ids (students three_rows)) /\
  value_of (update_student 4 (Some "Dan") None None None) three_rows = true.
Proof.
  assert (Hid : ~ In 4 (ids (students three_rows)))
    by (simpl; intros [H|[H|[H|[]]]]; discriminate H).
  split; [reflexivity|]. split; [exact Hid|].
  exact (proj1 (missing_id_is_silent_success three_rows 4 (Some "Dan")
                  None None None eq_refl Hid)).
Defined.

(** C3: when the engine does not fail, [insert_student] with all four
    fields given returns [True]; the row it adds carries an id that no row
    of the table had, and a following [view_all_students] lists a record
    with that id and exactly the given values. *)
Theorem insert_assigns_fresh_id (w : world) (name email phone : string)
  (age : Z) :
  healthy 2 w = true ->
  value_of (insert_student (Some name) (Some email) (Some phone) (Some age)) w
  = true /\
  ~ In (next_rowid w) (ids (students w)) /\
  students
    (world_after
       (insert_student (Some name) (Some email) (Some phone) (Some age)) w)
  = (students w
     ++ [mkRow (next_rowid w) name email phone (Some age)
               (current_timestamp w)])%list /\
  In (next_rowid w, name, email, phone, Some age)
     (listed
        (value_of view_all_students
           (world_after
              (insert_student (Some name) (Some email) (Some phone) (Some age))
              w))).
Proof.
  intros Hw. unfold value_of at 1. unfold world_after.
  rewrite (insert_student_runs w name email phone (Some age)
             (healthy_head 1 w Hw)).
  cbn [fst snd students]. repeat split.
  - apply next_rowid_fresh.
  - match goal with |- In _ (listed (value_of _ ?w')) =>
      assert (Hw' : hd None (faults w') = None)
        by (apply (healthy_head 0), (healthy_tail 1 w); trivial);
      destruct (view_all_students_runs w' Hw') as [-> _]
    end.
    cbn [students]. rewrite map_app, in_app_iff. right. left. reflexivity.
Qed.

Lemma insert_assigns_fresh_id_witness :
  healthy 2 three_rows = true /\
  next_rowid three_rows = 6 /\
  In (6, "Cy", "cy@example.com", "555-0103", Some 19)
     (listed
        (value_of view_all_students
           (world_after
              (insert_student (Some "Cy") (Some "cy@example.com")
                              (Some "555-0103") (Some 19)) three_rows))).
Proof.
  split; [reflexivity|]. split; [reflexivity|].
  exact (proj2 (proj2 (proj2
    (insert_assigns_fresh_id three_rows "Cy" "cy@example.com" "555-0103" 19
       eq_refl)))).
Defined.

Lemma Forall2_map_same {A : Type} (P : A -> A -> Prop) (f : A -> A)
  (l : list A) :
  (forall x, P x (f x)) -> Forall2 P l (map f l).
Proof. intros H. induction l; simpl; constructor; auto. Qed.

Lemma find_after_update (id : Z) (n e p : string) (a : option Z)
  (rows : list row) :
  In id (ids rows) ->
  option_map columns_of
    (find (has_id id)
       (map (fun r => if has_id id r then set_fields n e p a r else r) rows))
  = Some (id, n, e, p, a).
Proof.
  unfold ids. induction rows as [|r rows IH]; simpl; [tauto|].
  intros H. destruct (has_id id r) eqn:Hr.
  - unfold has_id in *. cbn [set_fields row_id]. rewrite Hr.
    apply Z.eqb_eq in Hr. subst id. reflexivity.
  - rewrite Hr. apply IH. destruct H as [H|H]; trivial.
    unfold has_id in Hr. apply Z.eqb_neq in Hr. contradiction.
Qed.

(** C4: for an id that is in the table, [update_student] (the engine
    accepting the statement) returns [True] and sets name, email, phone and
    age of the row with that id to the given values; that row keeps its id
    and its created_at, every other row is the same as before, and a
    following [get_student_by_id] returns the new values. *)
Theorem update_overwrites_fields (w : world) (id : Z)
  (name email phone : string) (age : option Z) :
  healthy 2 w = true ->
  In id (ids (students w)) ->
  value_of (update_student id (Some name) (Some email) (Some phone) age) w
  = true /\
  Forall2 (updated_row id name email phone age)
    (students w)
    (students
       (world_after
          (update_student id (Some name) (Some email) (Some phone) age) w)) /\
  value_of (get_student_by_id id)
    (world_after
       (update_student id (Some name) (Some email) (Some phone) age) w)
  = Some (id, name, email, phone, age).
Proof.
  intros Hw Hid. unfold value_of at 1. unfold world_after.
  rewrite (update_student_runs w id name email phone age
             (healthy_head 1 w Hw)).
  cbn [fst snd students]. split; [reflexivity|]. split.
  - apply Forall2_map_same. intros r. unfold updated_row, has_id.
    destruct (row_id r =? id) eqn:E; cbn; rewrite ?E; repeat split.
  - unfold value_of. rewrite get_student_by_id_runs.
    + cbn [fst students]. apply find_after_update, Hid.
    + apply (healthy_head 0), (healthy_tail 1 w); trivial.
Qed.

Lemma update_overwrites_fields_witness :
  healthy 2 three_rows = true /\ In 2 (ids (students three_rows)) /\
  value_of (get_student_by_id 2)
    (world_after
       (update_student 2 (Some "Zoe Q") (Some "zq@example.com")
                       (Some "555-0199") (Some 22)) three_rows)
  = Some (2, "Zoe Q", "zq@example.com", "555-0199", Some 22).
Proof.
  assert (Hid : In 2 (ids (students three_rows))) by (simpl; auto).
  split; [reflexivity|]. split; [exact Hid|].
  exact (proj2 (proj2
    (update_overwrites_fields three_rows 2 "Zoe Q" "zq@example.com"
       "555-0199" (Some 22) eq_refl Hid))).
Defined.

Lemma find_after_delete (id : Z) (rows : list row) :
  find (has_id id) (filter (fun r => negb (has_id id r)) rows) = None.
Proof.
  induction rows as [|r rows IH]; simpl; trivial.
  destruct (has_id id r) eqn:E; simpl; rewrite ?E; exact IH.
Qed.

(** C5: for an id that is in the table, [delete_student] (the engine
    running the statement) returns [True] and removes the row with that id
    and no other: the rows left are the old rows with another id, in their
    old order.  A following [view_all_students] lists the (id, name, email,
    phone, age) of exactly those rows, each with the values it had, and no
    record with the deleted id; a following [get_student_by_id] of that id
    returns no record. *)
Theorem delete_removes_row (w : world) (id : Z) :
  healthy 2 w = true ->
  In id (ids (students w)) ->
  value_of (delete_student id) w = true /\
  students (world_after (delete_student id) w)
  = filter (fun r => negb (row_id r =? id)) (students w) /\
  (forall r, In r (students (world_after (delete_student id) w)) <->
             In r (students w) /\ row_id r <> id) /\
  listed (value_of view_all_students (world_after (delete_student id) w))
  = map (fun r => (row_id r, row_name r, row_email r, row_phone r, row_age r))
        (filter (fun r => negb (row_id r =? id)) (students w)) /\
  (forall k n e p a,
     In (k, n, e, p, a)
        (listed (value_of view_all_students
                   (world_after (delete_student id) w))) <->
     k <> id /\ exists t, In (mkRow k n e p a t) (students w)) /\
  ~ In id (ids (students (world_after (delete_student id) w))) /\
  value_of (get_student_by_id id) (world_after (delete_student id) w) = None.
Proof.
  intros Hw Hid. unfold value_of at 1. unfold world_after.
  rewrite (delete_student_runs w id (healthy_head 1 w Hw)).
  cbn [fst snd students].
  match goal with |- context [value_of view_all_students ?w0] =>
    set (w' := w0);
    assert (Hw' : hd None (faults w') = None)
      by (apply (healthy_head 0), (healthy_tail 1 w); trivial)
  end.
  assert (Hin : forall r,
             In r (filter (fun r => negb (has_id id r)) (students w)) <->
             In r (students w) /\ row_id r <> id).
  { intros r. rewrite filter_In. unfold has_id.
    rewrite negb_true_iff, Z.eqb_neq. tauto. }
  assert (Hlist : listed (value_of view_all_students w')
                  = map (fun r => (row_id r, row_name r, row_email r,
                                   row_phone r, row_age r))
                        (filter (fun r => negb (row_id r =? id)) (students w))).
  { destruct (view_all_students_runs w' Hw') as [-> _]. reflexivity. }
  split; [reflexivity|]. split; [reflexivity|]. split; [exact Hin|].
  split; [exact Hlist|]. split; [|split].
  - intros k n e p a. rewrite Hlist, in_map_iff. split.
    + intros [r [Hr Hrin]]. apply Hin in Hrin. destruct Hrin as [Hrin Hne].
      destruct r as [k0 n0 e0 p0 a0 t0]. cbn in Hr, Hne.
      injection Hr as -> -> -> -> ->. split; [exact Hne|].
      exists t0. exact Hrin.
    + intros [Hne [t Hrin]]. exists (mkRow k n e p a t).
      split; [reflexivity|]. apply Hin. split; [exact Hrin | exact Hne].
  - unfold ids. rewrite in_map_iff. intros [r [E Hr]].
    apply Hin in Hr. tauto.
  - unfold value_of. rewrite (get_student_by_id_runs w' id Hw').
    cbn [fst]. unfold w'. cbn [students].
    rewrite find_after_delete. reflexivity.
Qed.

Lemma delete_removes_row_witness :
  healthy 2 three_rows = true /\ In 2 (ids (students three_rows)) /\
  listed (value_of view_all_students (world_after (delete_student 2) three_rows))
  = [(1, "Ada Lovelace", "ada@example.com", "555-0100", Some 36);
     (5, "Bob", "bob@example.com", "555-0102", Some 41)].
Proof.
  assert (Hid : In 2 (ids (students three_rows))) by (simpl; auto).
  split; [reflexivity|]. split; [exact Hid|].
  destruct (delete_removes_row three_rows 2 eq_refl Hid)
    as [_ [_ [_ [Hlist _]]]].
  rewrite Hlist. reflexivity.
Defined.

(** C9: for an id that is not in the table, [get_student_by_id] (the engine
    running the query) returns no record, puts no error and nothing else on
    the page, and leaves the table as it was. *)
Theorem missing_id_is_not_found (w : world) (id : Z) :
  healthy 1 w = true ->
  ~ In id (ids (students w)) ->
  value_of (get_student_by_id id) w = None /\
  screen (world_after (get_student_by_id id) w) = screen w /\
  students (world_after (get_student_by_id id) w) = students w /\
  sqlite_sequence (world_after (get_student_by_id id) w) = sqlite_sequence w.
Proof.
  intros Hw Hid. unfold value_of, world_after.
  rewrite (get_student_by_id_runs w id (healthy_head 0 w Hw)).
  cbn [fst snd screen students sqlite_sequence].
  apply find_none_iff in Hid. rewrite Hid. repeat split.
Qed.

Lemma missing_id_is_not_found_witness :
  healthy 1 three_rows = true /\ ~ In 4 (ids (students three_rows)) /\
  value_of (get_student_by_id 4) three_rows = None.
Proof.
  assert (Hid : ~ In 4 (ids (students three_rows)))
    by (simpl; intros [H|[H|[H|[]]]]; discriminate H).
  split; [reflexivity|]. split; [exact Hid|].
  exact (proj1 (missing_id_is_not_found three_rows 4 eq_refl Hid)).
Defined.

(** ** ORDER BY name *)

Section OrderByName.

Lemma ascii_compare_refl (x : ascii) : Ascii.compare x x = Eq.
Proof. apply N.compare_refl. Qed.

Lemma ascii_compare_lt_trans (x y z : ascii) :
  Ascii.compare x y = Lt -> Ascii.compare y z = Lt -> Ascii.compare x z = Lt.
Proof.
  unfold Ascii.compare. rewrite !N.compare_lt_iff. apply N.lt_trans.
Qed.

Lemma string_compare_trans (a b c : string) :
  String.compare a b <> Gt -> String.compare b c <> Gt ->
  String.compare a c <> Gt.
Proof.
  revert b c. induction a as [|x a IH]; intros [|y b] [|z c]; simpl;
    try congruence.
  destruct (Ascii.compare x y) eqn:Exy; try congruence;
    destruct (Ascii.compare y z) eqn:Eyz; try congruence; intros Hab Hbc.
  - apply Ascii.compare_eq_iff in Exy, Eyz. subst.
    rewrite ascii_compare_refl. eauto.
  - apply Ascii.compare_eq_iff in Exy. subst. rewrite Eyz. discriminate.
  - apply Ascii.compare_eq_iff in Eyz. subst. rewrite Exy. discriminate.
  - rewrite (ascii_compare_lt_trans x y z Exy Eyz). discriminate.
Qed.

Lemma leb_compare (a b : string) :
  String.leb a b = true <-> String.compare a b <> Gt.
Proof.
  unfold String.leb. destruct (String.compare a b); split; congruence.
Qed.

Lemma name_le_trans (p q r : Z * string) :
  name_le p q -> name_le q r -> name_le p r.
Proof. unfold name_le. rewrite !leb_compare. apply string_compare_trans. Qed.

Lemma insert_by_name_perm (p : Z * string) (l : list (Z * string)) :
  Permutation (insert_by_name p l) (p :: l).
Proof.
  induction l as [|q l IH]; simpl; [reflexivity|].
  destruct (String.leb (snd p) (snd q)); [reflexivity|].
  rewrite IH. apply perm_swap.
Qed.

Lemma order_by_name_perm (l : list (Z * string)) :
  Permutation (order_by_name l) l.
Proof.
  induction l as [|p l IH]; simpl; [reflexivity|].
  rewrite insert_by_name_perm. constructor. exact IH.
Qed.

Lemma insert_by_name_sorted (p : Z * string) (l : list (Z * string)) :
  StronglySorted name_le l -> StronglySorted name_le (insert_by_name p l).
Proof.
  induction 1 as [|q l Hl IH Hq]; simpl.
  - repeat constructor.
  - destruct (String.leb (snd p) (snd q)) eqn:E.
    + constructor; [constructor; assumption|].
      constructor; [exact E|].
      eapply Forall_impl; [|exact Hq]. intros r. apply name_le_trans, E.
    + constructor; [exact IH|].
      apply (Permutation_Forall (Permutation_sym (insert_by_name_perm p l))).
      constructor; [|exact Hq].
      destruct (String.leb_total (snd p) (snd q)) as [H|H]; [congruence|].
      exact H.
Qed.

Lemma order_by_name_sorted (l : list (Z * string)) :
  StronglySorted name_le (order_by_name l).
Proof.
  induction l as [|p l IH]; simpl; [constructor|].
  apply insert_by_name_sorted, IH.
Qed.

End OrderByName.

(** C8: whatever the table holds, [get_all_student_ids] (the engine running
    the query) returns the (id, name) pairs of all its rows, each row once,
    in ascending order of name. *)
Theorem ids_listed_by_name (w : world) :
  healthy 1 w = true ->
  Permutation (value_of get_all_student_ids w)
              (map id_and_name (students w)) /\
  StronglySorted name_le (value_of get_all_student_ids w).
Proof.
  intros Hw. unfold value_of.
  rewrite (get_all_student_ids_runs w (healthy_head 0 w Hw)). cbn [fst].
  split; [apply order_by_name_perm | apply order_by_name_sorted].
Qed.

Lemma ids_listed_by_name_witness :
  healthy 1 three_rows = true /\
  value_of get_all_student_ids three_rows
  = [(1, "Ada Lovelace"); (5, "Bob"); (2, "Zoe")] /\
  StronglySorted name_le (value_of get_all_student_ids three_rows).
Proof.
  split; [reflexivity|]. split; [reflexivity|].
  exact (proj2 (ids_listed_by_name three_rows eq_refl)).
Defined.

(** ** Failures, empty results and the page *)

(** C1, as stated, fails: on an empty table [view_all_students] returns the
    same value whether the engine runs the query or raises, and for an id
    that is not in the table so does [get_student_by_id]. *)
Lemma failure_value_is_the_empty_value :
  ~ (value_of view_all_students no_rows
     <> value_of view_all_students (failing no_rows)) /\
  ~ (value_of (get_student_by_id 4) three_rows
     <> value_of (get_student_by_id 4) (failing three_rows)).
Proof. split; intros H; apply H; reflexivity. Qed.

(** C1, amended: [view_all_students] returns [None] both on an empty table
    and when the engine raises, and [get_student_by_id] returns [None] both
    for an id that is not in the table and when the engine raises; the two
    outcomes differ on the page only, where the failure adds an error
    message and the empty or not-found result adds nothing. *)
Theorem failure_differs_on_page_only (w_empty w_missing w_bad : world)
  (id : Z) (e : string) :
  healthy 1 w_empty = true -> students w_empty = [] ->
  healthy 1 w_missing = true -> ~ In id (ids (students w_missing)) ->
  hd None (faults w_bad) = Some e ->
  (value_of view_all_students w_empty = None /\
   value_of view_all_students w_bad = None /\
   screen (world_after view_all_students w_empty) = screen w_empty /\
   screen (world_after view_all_students w_bad)
   = (screen w_bad ++ [Error ("❌ Error retrieving records: " ++ e)])%list) /\
  (value_of (get_student_by_id id) w_missing = None /\
   value_of (get_student_by_id id) w_bad = None /\
   screen (world_after (get_student_by_id id) w_missing) = screen w_missing /\
   screen (world_after (get_student_by_id id) w_bad)
   = (screen w_bad ++ [Error ("❌ Error retrieving student: " ++ e)])%list).
Proof.
  intros He Hrows Hm Hid Hbad.
  apply healthy_head in He, Hm.
  destruct (view_all_students_runs w_empty He) as [_ [Hnone [_ Hscr]]].
  unfold value_of, world_after in *.
  rewrite (view_all_students_fails w_bad e Hbad).
  rewrite (get_student_by_id_fails w_bad id e Hbad).
  rewrite (get_student_by_id_runs w_missing id Hm).
  cbn [fst snd screen]. apply find_none_iff in Hid. rewrite Hid.
  repeat split; trivial. apply Hnone, Hrows.
Qed.

Lemma failure_differs_on_page_only_witness :
  screen (world_after view_all_students no_rows) = [] /\
  screen (world_after view_all_students (failing three_rows))
  = [Error "❌ Error retrieving records: disk I/O error"].
Proof.
  assert (Hid : ~ In 4 (ids (students three_rows)))
    by (simpl; intros [H|[H|[H|[]]]]; discriminate H).
  destruct (failure_differs_on_page_only no_rows three_rows
              (failing three_rows) 4 "disk I/O error"
              eq_refl eq_refl eq_refl Hid eq_refl)
    as [[_ [_ [Hquiet Hloud]]] _].
  split; [exact Hquiet | exact Hloud].
Defined.

Ltac page :=
  cbv [update_student_page delete_student_page add_student_page st_header
       st_info st_error render bind ret value_of world_after];
  cbn [faults students sqlite_sequence current_timestamp connections screen
       with_students with_sequence with_faults with_connections with_screen
       fst snd].

(** C10: [get_all_student_ids] returns the empty list when the table is
    empty and also when the engine raises; in both cases the Update and the
    Delete view end after the same "no students found" notice, with no
    selector on the page (after a failure the error message precedes the
    notice), and the table is untouched. *)
Theorem no_selector_without_list (w : world) (upd : update_form)
  (del : delete_form) :
  (hd None (faults w) = None -> students w = []) ->
  value_of get_all_student_ids w = [] /\
  value_of (update_student_page upd) w = Finished /\
  screen (world_after (update_student_page upd) w)
  = (screen w
     ++ Header "Update Student Record"
     :: failure_note "❌ Error retrieving student list: " (hd None (faults w))
     ++ [no_students_info])%list /\
  students (world_after (update_student_page upd) w) = students w /\
  value_of (delete_student_page del) w = Finished /\
  screen (world_after (delete_student_page del) w)
  = (screen w
     ++ Header "Delete Student Record"
     :: failure_note "❌ Error retrieving student list: " (hd None (faults w))
     ++ [no_students_info])%list /\
  students (world_after (delete_student_page del) w) = students w.
Proof.
  destruct w as [rows seq now fs c scr]. cbn [faults students screen].
  intros H. destruct (hd None fs) as [e|] eqn:Hf.
  - repeat split; page; run; rewrite Hf; cbn; rewrite <- ?app_assoc;
      reflexivity.
  - rewrite (H eq_refl).
    repeat split; page; run; rewrite Hf; cbn; rewrite <- ?app_assoc;
      reflexivity.
Qed.

Lemma no_selector_without_list_witness :
  (hd None (faults (failing three_rows)) = None ->
   students (failing three_rows) = []) /\
  screen
    (world_after (delete_student_page (mkDeleteForm 0 true false))
                 (failing three_rows))
  = [Header "Delete Student Record";
     Error "❌ Error retrieving student list: disk I/O error";
     no_students_info].
Proof.
  assert (H : hd None (faults (failing three_rows)) = None ->
              students (failing three_rows) = []) by discriminate.
  split; [exact H|].
  destruct (no_selector_without_list (failing three_rows)
              (mkUpdateForm 0 "Zoe" "z@example.com" "555" None true)
              (mkDeleteForm 0 true false) H)
    as [_ [_ [_ [_ [_ [Hscreen _]]]]]].
  exact Hscreen.
Defined.

(** ** The Add view *)

Lemma truthy_str_iff (s : string) :
  Py.truthy_str s = true <-> s <> EmptyString.
Proof.
  unfold Py.truthy_str. rewrite negb_true_iff. apply String.eqb_neq.
Qed.

Lemma filled_iff (ui : add_form) :
  filled ui <->
  Py.truthy_str (add_name ui) && Py.truthy_str (add_email ui)
  && Py.truthy_str (add_phone ui) && Py.truthy_int (add_age ui) = true.
Proof.
  unfold filled, Py.truthy_int.
  rewrite !andb_true_iff, !truthy_str_iff, negb_true_iff, Z.eqb_neq. tauto.
Qed.

(** C7: on submit of the Add form, [insert_student] is called if and only
    if name, email, phone and age all hold a value (a non-empty text, a
    number that Python counts as true); the view then does exactly what
    [insert_student] does with those four values.  Otherwise the view shows
    the validation error and touches nothing else: no connection is opened,
    no statement reaches the engine and the table is unchanged. *)
Theorem add_form_presence_check (w : world) (ui : add_form) :
  add_submit_btn ui = true ->
  (filled ui ->
   add_student_page ui w =
   (Finished,
    world_after
      (insert_student (Some (add_name ui)) (Some (add_email ui))
                      (Some (add_phone ui)) (Some (add_age ui)))
      (with_screen (screen w ++ add_form_widgets) w))) /\
  (~ filled ui ->
   add_student_page ui w =
   (Finished,
    with_screen
      (screen w ++ add_form_widgets ++ [Error "❌ Please fill in all fields!"])
      w)) /\
  (connections (world_after (add_student_page ui) w) = S (connections w)
   <-> filled ui) /\
  (~ filled ui ->
   connections (world_after (add_student_page ui) w) = connections w /\
   faults (world_after (add_student_page ui) w) = faults w /\
   students (world_after (add_student_page ui) w) = students w).
Proof.
  intros Hsubmit.
  assert (Hyes : filled ui ->
    add_student_page ui w =
    (Finished,
     world_after
       (insert_student (Some (add_name ui)) (Some (add_email ui))
                       (Some (add_phone ui)) (Some (add_age ui)))
       (with_screen (screen w ++ add_form_widgets) w))).
  { intros Hf. apply filled_iff in Hf. destruct w as [rows seq now fs c scr].
    page. rewrite Hsubmit, Hf. run.
    destruct (hd None fs); cbn; rewrite <- ?app_assoc; reflexivity. }
  assert (Hno : ~ filled ui ->
    add_student_page ui w =
    (Finished,
     with_screen
       (screen w ++ add_form_widgets ++ [Error "❌ Please fill in all fields!"])
       w)).
  { intros Hf. rewrite filled_iff in Hf. apply not_true_is_false in Hf.
    destruct w as [rows seq now fs c scr].
    page. rewrite Hsubmit, Hf. cbn. rewrite <- ?app_assoc. reflexivity. }
  assert (Hdec : filled ui \/ ~ filled ui).
  { rewrite filled_iff. destruct (_ && _); [left | right]; congruence. }
  split; [exact Hyes|]. split; [exact Hno|]. split.
  - unfold world_after. split.
    + intros Hc. destruct Hdec as [Hf|Hf]; trivial.
      rewrite (Hno Hf) in Hc. cbn in Hc. lia.
    + intros Hf. rewrite (Hyes Hf).
      destruct w as [rows seq now fs c scr]. run.
      destruct (hd None fs); reflexivity.
  - intros Hf. unfold world_after. rewrite (Hno Hf). repeat split.
Qed.

Lemma add_form_presence_check_witness :
  add_submit_btn no_email_form = true /\
  ~ filled no_email_form /\
  add_student_page no_email_form three_rows =
  (Finished,
   with_screen
     (add_form_widgets ++ [Error "❌ Please fill in all fields!"]) three_rows).
Proof.
  assert (Hf : ~ filled no_email_form)
    by (intros [_ [H _]]; apply H; reflexivity).
  split; [reflexivity|]. split; [exact Hf|].
  exact (proj1 (proj2
    (add_form_presence_check three_rows
       no_email_form eq_refl)) Hf).
Defined.

(** * Further properties of the storage layer *)

Section Writes.

(** X1: when the engine raises on the statement of [insert_student],
    [update_student] or [delete_student], the function returns [False],
    shows its error message with the text of the exception, and leaves the
    rows and the AUTOINCREMENT mark as they were. *)
Theorem failed_write_changes_nothing (w : world) (e : string) (id : Z)
  (name email phone : option string) (age : option Z) :
  hd None (faults w) = Some e ->
  (value_of (insert_student name email phone age) w = false /\
   students (world_after (insert_student name email phone age) w)
   = students w /\
   sqlite_sequence (world_after (insert_student name email phone age) w)
   = sqlite_sequence w /\
   screen (world_after (insert_student name email phone age) w)
   = (screen w ++ [Error ("❌ Error adding student: " ++ e)])%list) /\
  (value_of (update_student id name email phone age) w = false /\
   students (world_after (update_student id name email phone age) w)
   = students w /\
   sqlite_sequence (world_after (update_student id name email phone age) w)
   = sqlite_sequence w /\
   screen (world_after (update_student id name email phone age) w)
   = (screen w ++ [Error ("❌ Error updating student: " ++ e)])%list) /\
  (value_of (delete_student id) w = false /\
   students (world_after (delete_student id) w) = students w /\
   sqlite_sequence (world_after (delete_student id) w) = sqlite_sequence w /\
   screen (world_after (delete_student id) w)
   = (screen w ++ [Error ("❌ Error deleting student: " ++ e)])%list).
Proof.
  destruct w as [rows seq now fs c scr]. cbn [faults students screen
    sqlite_sequence]. intros H.
  repeat split; run; rewrite H; reflexivity.
Qed.

Lemma failed_write_changes_nothing_witness :
  hd None (faults (failing three_rows)) = Some "disk I/O error" /\
  value_of (delete_student 2) (failing three_rows) = false /\
  students (world_after (delete_student 2) (failing three_rows))
  = [ada; zoe; bob] /\
  sqlite_sequence (world_after (delete_student 2) (failing three_rows)) = 5.
Proof.
  split; [reflexivity|].
  destruct (failed_write_changes_nothing (failing three_rows)
              "disk I/O error" 2 None None None None eq_refl)
    as [_ [_ [Hvalue [Hrows [Hseq _]]]]].
  split; [exact Hvalue|]. split; [exact Hrows | exact Hseq].
Defined.

(** X2: [insert_student] with [None] for name, email or phone never adds a
    row: it returns [False], shows an "Error adding student" message and
    leaves the table as it was; [update_student] with such a value on an id
    that is in the table likewise returns [False] and changes nothing. *)
Theorem null_text_is_rejected (w : world) (id : Z)
  (name email phone : option string) (age : option Z) :
  name = None \/ email = None \/ phone = None ->
  (value_of (insert_student name email phone age) w = false /\
   students (world_after (insert_student name email phone age) w)
   = students w /\
   sqlite_sequence (world_after (insert_student name email phone age) w)
   = sqlite_sequence w /\
   exists msg,
     screen (world_after (insert_student name email phone age) w)
     = (screen w ++ [Error ("❌ Error adding student: " ++ msg)])%list) /\
  (In id (ids (students w)) ->
   value_of (update_student id name email phone age) w = false /\
   students (world_after (update_student id name email phone age) w)
   = students w /\
   exists msg,
     screen (world_after (update_student id name email phone age) w)
     = (screen w ++ [Error ("❌ Error updating student: " ++ msg)])%list).
Proof.
  destruct w as [rows seq now fs c scr]. cbn [faults students screen
    sqlite_sequence]. intros Hnull. split.
  - run. destruct (hd None fs) as [e|].
    + repeat split. eexists. reflexivity.
    + destruct name, email, phone;
        try (exfalso; destruct Hnull as [H|[H|H]]; discriminate H);
        (repeat split; eexists; reflexivity).
  - intros Hid. apply existsb_has_id in Hid.
    run. destruct (hd None fs) as [e|].
    + repeat split. eexists. reflexivity.
    + run. rewrite Hid.
      destruct name, email, phone;
        try (exfalso; destruct Hnull as [H|[H|H]]; discriminate H);
        (repeat split; eexists; reflexivity).
Qed.

Lemma null_text_is_rejected_witness :
  (Some "Cy" = None \/ @None string = None \/ Some "555-0103" = None) /\
  value_of (insert_student (Some "Cy") None (Some "555-0103") (Some 19))
           three_rows = false.
Proof.
  assert (H : Some "Cy" = None \/ @None string = None \/ Some "555-0103" = None)
    by (right; left; reflexivity).
  split; [exact H|].
  exact (proj1 (proj1
    (null_text_is_rejected three_rows 2 (Some "Cy") None (Some "555-0103")
       (Some 19) H))).
Defined.

Lemma find_appended (k : Z) (rows : list row) (r : row) :
  ~ In k (ids rows) -> row_id r = k ->
  find (has_id k) (rows ++ [r]) = Some r.
Proof.
  unfold ids, has_id. intros Hk Hr. induction rows as [|q rows IH]; simpl.
  - rewrite Hr, Z.eqb_refl. reflexivity.
  - simpl in Hk. destruct (Z.eqb_spec (row_id q) k) as [E|E]; [tauto|].
    apply IH. tauto.
Qed.

(** X3: a student that [insert_student] has added is read back by
    [get_student_by_id] under the id the insert gave it, with the name,
    email, phone and age (a number or [None]) that were given. *)
Theorem insert_then_lookup (w : world) (name email phone : string)
  (age : option Z) :
  healthy 2 w = true ->
  value_of (get_student_by_id (next_rowid w))
    (world_after (insert_student (Some name) (Some email) (Some phone) age) w)
  = Some (next_rowid w, name, email, phone, age).
Proof.
  intros Hw. unfold world_after.
  rewrite (insert_student_runs w name email phone age (healthy_head 1 w Hw)).
  unfold value_of. rewrite get_student_by_id_runs.
  - cbn [fst snd students].
    rewrite (find_appended (next_rowid w) (students w)
               (mkRow (next_rowid w) name email phone age
                      (current_timestamp w)));
      [reflexivity | apply next_rowid_fresh | reflexivity].
  - apply (healthy_head 0), (healthy_tail 1 w); trivial.
Qed.

Lemma insert_then_lookup_witness :
  healthy 2 three_rows = true /\
  value_of (get_student_by_id 6)
    (world_after
       (insert_student (Some "Cy") (Some "cy@example.com") (Some "555-0103")
                       None) three_rows)
  = Some (6, "Cy", "cy@example.com", "555-0103", None).
Proof.
  split; [reflexivity|].
  exact (insert_then_lookup three_rows "Cy" "cy@example.com" "555-0103" None
           eq_refl).
Defined.

Lemma find_present (k : Z) (rows : list row) :
  In k (ids rows) ->
  exists r, find (has_id k) rows = Some r /\ In r rows /\ row_id r = k.
Proof.
  unfold ids, has_id. induction rows as [|q rows IH]; simpl; [tauto|].
  intros H. destruct (Z.eqb_spec (row_id q) k) as [E|E].
  - exists q. auto.
  - destruct IH as [r [Hf [Hin Hr]]]; [tauto|]. exists r. auto.
Qed.

(** X4: for an id that is in the table, [get_student_by_id] (the engine
    running the query) returns the five columns of a row of the table that
    has this id, shows nothing and changes nothing. *)
Theorem present_id_is_found (w : world) (id : Z) :
  healthy 1 w = true ->
  In id (ids (students w)) ->
  (exists r, In r (students w) /\ row_id r = id /\
             value_of (get_student_by_id id) w = Some (columns_of r)) /\
  screen (world_after (get_student_by_id id) w) = screen w /\
  students (world_after (get_student_by_id id) w) = students w.
Proof.
  intros Hw Hid. unfold value_of, world_after.
  rewrite (get_student_by_id_runs w id (healthy_head 0 w Hw)).
  cbn [fst snd screen students].
  destruct (find_present id (students w) Hid) as [r [Hf [Hin Hr]]].
  rewrite Hf. split; [|split; reflexivity].
  exists r. repeat split; trivial.
Qed.

Lemma present_id_is_found_witness :
  healthy 1 three_rows = true /\ In 5 (ids (students three_rows)) /\
  exists r, In r (students three_rows) /\ row_id r = 5 /\
            value_of (get_student_by_id 5) three_rows = Some (columns_of r).
Proof.
  assert (Hid : In 5 (ids (students three_rows))) by (simpl; auto).
  split; [reflexivity|]. split; [exact Hid|].
  exact (proj1 (present_id_is_found three_rows 5 eq_refl Hid)).
Defined.

End Writes.

(** ** Row ids *)

Section RowIds.

Lemma sorted_snoc (l : list Z) (k : Z) :
  StronglySorted Z.lt l -> Forall (fun x => x < k) l ->
  StronglySorted Z.lt (l ++ [k]).
Proof.
  induction 1 as [|x l Hl IH Hx]; intros Hk; simpl.
  - repeat constructor.
  - inversion Hk; subst. constructor; [auto|].
    apply Forall_app. split; [exact Hx | repeat constructor; assumption].
Qed.

Lemma ids_snoc (rows : list row) (r : row) :
  ids (rows ++ [r]) = (ids rows ++ [row_id r])%list.
Proof. unfold ids. apply map_app. Qed.

Lemma ids_updated (k : Z) (n e p : string) (a : option Z) (rows : list row) :
  ids (map (fun r => if has_id k r then set_fields n e p a r else r) rows)
  = ids rows.
Proof.
  unfold ids. rewrite map_map. apply map_ext. intros r.
  destruct (has_id k r); reflexivity.
Qed.

Lemma forall_ids_filter (P : Z -> Prop) (keep : row -> bool)
  (rows : list row) :
  Forall P (ids rows) -> Forall P (ids (filter keep rows)).
Proof.
  unfold ids. induction rows as [|r rows IH]; simpl; trivial.
  intros H. inversion H; subst. destruct (keep r); simpl; auto.
Qed.

Lemma sorted_ids_filter (keep : row -> bool) (rows : list row) :
  StronglySorted Z.lt (ids rows) ->
  StronglySorted Z.lt (ids (filter keep rows)).
Proof.
  induction rows as [|r rows IH]; simpl; trivial.
  intros H. inversion H; subst. destruct (keep r); simpl; auto.
  constructor; auto. apply (forall_ids_filter _ keep rows). assumption.
Qed.

Lemma max_rowid_nonneg (rows : list row) : 0 <= max_rowid rows.
Proof.
  unfold max_rowid. induction (ids rows) as [|k l IH]; simpl; lia.
Qed.

Lemma max_rowid_snoc (rows : list row) (r : row) :
  0 <= row_id r ->
  max_rowid (rows ++ [r]) = Z.max (max_rowid rows) (row_id r).
Proof.
  intros Hr. unfold max_rowid. rewrite ids_snoc.
  induction (ids rows) as [|k l IH]; simpl; lia.
Qed.

Lemma next_rowid_above (w : world) :
  sqlite_sequence w < next_rowid w /\
  Forall (fun k => k < next_rowid w) (ids (students w)).
Proof.
  unfold next_rowid. split; [lia|].
  apply Forall_forall. intros k Hk. apply max_rowid_bound in Hk. lia.
Qed.

Lemma well_formed_same (w w' : world) :
  students w' = students w -> sqlite_sequence w' = sqlite_sequence w ->
  well_formed w -> well_formed w'.
Proof. unfold well_formed. intros -> ->. trivial. Qed.

Lemma well_formed_appended (w w' : world) (r : row) :
  students w' = (students w ++ [r])%list ->
  row_id r = next_rowid w -> sqlite_sequence w' = next_rowid w ->
  well_formed w -> well_formed w'.
Proof.
  unfold well_formed. intros -> Hr -> [Hsorted Hbound].
  destruct (next_rowid_above w) as [Hseq Hids].
  rewrite ids_snoc, Hr. split.
  - apply sorted_snoc; assumption.
  - apply Forall_app. split.
    + eapply Forall_impl; [|exact Hids]. cbv beta. intros; lia.
    + repeat constructor. lia.
Qed.

Lemma read_only_preserves {A : Type} (m : M A) : read_only m -> preserves m.
Proof.
  intros H w. destruct (H w) as [Hrows Hseq].
  apply well_formed_same; assumption.
Qed.

Lemma preserves_ret {A : Type} (a : A) : preserves (ret a).
Proof. intros w H. exact H. Qed.

Lemma preserves_bind {A B : Type} (m : M A) (k : A -> M B) :
  preserves m -> (forall a, preserves (k a)) -> preserves (bind m k).
Proof.
  intros Hm Hk w Hw. unfold world_after, bind.
  specialize (Hm w Hw). unfold world_after in Hm.
  destruct (m w) as [a w']. apply (Hk a w' Hm).
Qed.

Lemma read_only_ret {A : Type} (a : A) : read_only (ret a).
Proof. intros w. split; reflexivity. Qed.

Lemma read_only_bind {A B : Type} (m : M A) (k : A -> M B) :
  read_only m -> (forall a, read_only (k a)) -> read_only (bind m k).
Proof.
  intros Hm Hk w. unfold world_after, bind.
  specialize (Hm w). unfold world_after in Hm.
  destruct (m w) as [a w']. cbn [snd] in Hm. destruct Hm as [<- <-].
  apply (Hk a w').
Qed.

Lemma read_only_render (e : element) : read_only (render e).
Proof. intros w. split; reflexivity. Qed.

Lemma read_only_view_all_students : read_only view_all_students.
Proof.
  intros [rows seq now fs c scr]. run.
  destruct (hd None fs); [split; reflexivity|].
  destruct rows; split; reflexivity.
Qed.

Lemma read_only_get_student_by_id (k : Z) : read_only (get_student_by_id k).
Proof.
  intros [rows seq now fs c scr]. run.
  destruct (hd None fs); split; reflexivity.
Qed.

Lemma read_only_get_all_student_ids : read_only get_all_student_ids.
Proof.
  intros [rows seq now fs c scr]. run.
  destruct (hd None fs); split; reflexivity.
Qed.

Lemma read_only_create_table : read_only create_table.
Proof.
  intros [rows seq now fs c scr].
  cbv [create_table get_connection next_fault bind ret world_after].
  cbn. destruct (hd None fs); split; reflexivity.
Qed.

Lemma preserves_insert_student (name email phone : option string)
  (age : option Z) : preserves (insert_student name email phone age).
Proof.
  intros [rows seq now fs c scr] Hw. run.
  destruct (hd None fs) as [e|]; [exact Hw|].
  destruct name as [n|], email as [e|], phone as [p|]; try exact Hw.
  run. eapply well_formed_appended; [| | |exact Hw]; reflexivity.
Qed.

Lemma preserves_update_student (k : Z) (name email phone : option string)
  (age : option Z) : preserves (update_student k name email phone age).
Proof.
  intros [rows seq now fs c scr] Hw. run.
  destruct (hd None fs) as [e|]; [exact Hw|]. run.
  destruct (existsb (has_id k) rows); [|exact Hw].
  destruct name as [n|], email as [e|], phone as [p|]; try exact Hw.
  destruct Hw as [Hsorted Hbound]. unfold well_formed. cbn.
  rewrite ids_updated. split; assumption.
Qed.

Lemma preserves_delete_student (k : Z) : preserves (delete_student k).
Proof.
  intros [rows seq now fs c scr] Hw. run.
  destruct (hd None fs) as [e|]; [exact Hw|].
  destruct Hw as [Hsorted Hbound]. unfold well_formed. cbn. split.
  - apply sorted_ids_filter, Hsorted.
  - apply forall_ids_filter, Hbound.
Qed.

Lemma sorted_nodup (l : list Z) : StronglySorted Z.lt l -> NoDup l.
Proof.
  induction 1 as [|k l Hl IH Hk]; constructor; trivial.
  intros Hin. rewrite Forall_forall in Hk. specialize (Hk k Hin). lia.
Qed.

Lemma well_formed_three_rows : well_formed three_rows.
Proof.
  split; cbn.
  - repeat constructor.
  - repeat constructor; discriminate.
Qed.

End RowIds.

(** X5: every database function keeps the table well formed, with any
    arguments and whether the engine runs or raises: the rows stay in
    strictly increasing id order, so no two rows ever share an id, and no id
    is above the AUTOINCREMENT mark. *)
Theorem database_functions_keep_ids_unique (w : world) (id : Z)
  (name email phone : option string) (age : option Z) :
  well_formed w ->
  well_formed (world_after (insert_student name email phone age) w) /\
  well_formed (world_after (update_student id name email phone age) w) /\
  well_formed (world_after (delete_student id) w) /\
  NoDup (ids (students (world_after (insert_student name email phone age) w)))
  /\
  NoDup
    (ids (students (world_after (update_student id name email phone age) w)))
  /\
  NoDup (ids (students (world_after (delete_student id) w))).
Proof.
  intros Hw.
  assert (Hins := preserves_insert_student name email phone age w Hw).
  assert (Hupd := preserves_update_student id name email phone age w Hw).
  assert (Hdel := preserves_delete_student id w Hw).
  split; [exact Hins|]. split; [exact Hupd|]. split; [exact Hdel|].
  split; [|split]; apply sorted_nodup; [apply Hins | apply Hupd | apply Hdel].
Qed.

Lemma database_functions_keep_ids_unique_witness :
  well_formed three_rows /\
  NoDup (ids (students
    (world_after (insert_student (Some "Cy") (Some "c") (Some "p") None)
                 three_rows))).
Proof.
  split; [exact well_formed_three_rows|].
  exact (proj1 (proj2 (proj2 (proj2
    (database_functions_keep_ids_unique three_rows 2 (Some "Cy") (Some "c")
       (Some "p") None well_formed_three_rows))))).
Defined.

(** X6: the id of a deleted student is not given out again: in a well
    formed table, after [delete_student id] the next insert gets an id above
    [id], and the table then holds no row with [id]. *)
Theorem deleted_id_is_not_reused (w : world) (id : Z)
  (name email phone : string) (age : option Z) :
  well_formed w ->
  healthy 2 w = true ->
  In id (ids (students w)) ->
  id < next_rowid (world_after (delete_student id) w) /\
  ~ In id
      (ids (students
         (world_after
            (insert_student (Some name) (Some email) (Some phone) age)
            (world_after (delete_student id) w)))).
Proof.
  intros [_ Hbound] Hw Hid. unfold world_after.
  rewrite (delete_student_runs w id (healthy_head 1 w Hw)). cbn [snd].
  match goal with |- _ < next_rowid ?w1 /\ _ =>
    set (w' := w1);
    assert (Hw' : hd None (faults w') = None)
      by (apply (healthy_head 0), (healthy_tail 1 w); trivial)
  end.
  assert (Hlt : id < next_rowid w').
  { rewrite Forall_forall in Hbound. specialize (Hbound id Hid).
    destruct (next_rowid_above w') as [Hseq _]. unfold w' in Hseq at 1.
    cbn [sqlite_sequence] in Hseq. lia. }
  split; [exact Hlt|].
  rewrite (insert_student_runs w' name email phone age Hw').
  cbn [snd students]. rewrite ids_snoc, in_app_iff. cbn [row_id In].
  intros [H|[H|[]]]; [|lia].
  unfold w' in H. cbn [students] in H. unfold ids in H.
  apply in_map_iff in H. destruct H as [r [Hr Hin]].
  apply filter_In in Hin. destruct Hin as [_ Hin]. unfold has_id in Hin.
  rewrite negb_true_iff, Z.eqb_neq in Hin. contradiction.
Qed.

Lemma deleted_id_is_not_reused_witness :
  well_formed three_rows /\ healthy 2 three_rows = true /\
  In 5 (ids (students three_rows)) /\
  5 < next_rowid (world_after (delete_student 5) three_rows).
Proof.
  assert (Hid : In 5 (ids (students three_rows))) by (simpl; auto).
  split; [exact well_formed_three_rows|]. split; [reflexivity|].
  split; [exact Hid|].
  exact (proj1 (deleted_id_is_not_reused three_rows 5 "Cy" "c" "p" None
                  well_formed_three_rows eq_refl Hid)).
Defined.

(** X7: two inserts in a row get consecutive ids, and nothing stops the
    second from repeating the values of the first: the table ends with two
    more records, ids [k] and [k + 1], after the records it had. *)
Theorem consecutive_inserts (w : world) (name email phone : string)
  (age : option Z) (name' email' phone' : string) (age' : option Z) :
  healthy 2 w = true ->
  map columns_of
    (students
       (world_after
          (insert_student (Some name') (Some email') (Some phone') age')
          (world_after
             (insert_student (Some name) (Some email) (Some phone) age) w)))
  = (map columns_of (students w)
     ++ [(next_rowid w, name, email, phone, age);
         (next_rowid w + 1, name', email', phone', age')])%list.
Proof.
  intros Hw. unfold world_after.
  rewrite (insert_student_runs w name email phone age (healthy_head 1 w Hw)).
  cbn [snd].
  match goal with
  | |- map _ (students (snd (insert_student _ _ _ _ ?w1))) = _ =>
      set (w' := w1);
      assert (Hw' : hd None (faults w') = None)
        by (apply (healthy_head 0), (healthy_tail 1 w); trivial)
  end.
  rewrite (insert_student_runs w' name' email' phone' age' Hw').
  cbn [snd students].
  assert (Hnext : next_rowid w' = next_rowid w + 1).
  { unfold next_rowid at 1. unfold w'. cbn [sqlite_sequence students].
    rewrite max_rowid_snoc; cbn [row_id].
    - pose proof (max_rowid_nonneg (students w)). unfold next_rowid. lia.
    - pose proof (max_rowid_nonneg (students w)). unfold next_rowid. lia. }
  rewrite Hnext. unfold w'. cbn [students current_timestamp].
  rewrite !map_app, <- app_assoc. reflexivity.
Qed.

Lemma consecutive_inserts_witness :
  healthy 2 three_rows = true /\
  map columns_of
    (students
       (world_after (insert_student (Some "Cy") (Some "c") (Some "p") None)
          (world_after
             (insert_student (Some "Cy") (Some "c") (Some "p") None)
             three_rows)))
  = [columns_of ada; columns_of zoe; columns_of bob;
     (6, "Cy", "c", "p", None); (7, "Cy", "c", "p", None)].
Proof.
  split; [reflexivity|].
  exact (consecutive_inserts three_rows "Cy" "c" "p" None "Cy" "c" "p" None
           eq_refl).
Defined.

(** X8: whatever its arguments and whether it succeeds or fails,
    [update_student] adds no row, removes none and changes no id and no
    created_at: the ids and the creation times of the rows are the same
    lists before and after, and the AUTOINCREMENT mark stays. *)
Theorem update_keeps_identity (w : world) (id : Z)
  (name email phone : option string) (age : option Z) :
  ids (students (world_after (update_student id name email phone age) w))
  = ids (students w) /\
  map row_created_at
      (students (world_after (update_student id name email phone age) w))
  = map row_created_at (students w) /\
  sqlite_sequence (world_after (update_student id name email phone age) w)
  = sqlite_sequence w.
Proof.
  destruct w as [rows seq now fs c scr]. run.
  destruct (hd None fs) as [e|]; [repeat split|]. run.
  destruct (existsb (has_id id) rows); [|repeat split].
  destruct name as [n|], email as [e|], phone as [p|]; try (repeat split).
  - apply ids_updated.
  - run. rewrite map_map. apply map_ext. intros r.
    destruct (has_id id r); reflexivity.
Qed.

(** X9: repeating a write changes nothing more: a second [delete_student]
    of the same id, or a second [update_student] with the same values, (the
    engine running both statements) returns [True] again and leaves the
    table as the first call left it. *)
Theorem repeated_write_is_noop (w : world) (id : Z)
  (name email phone : string) (age : option Z) :
  healthy 2 w = true ->
  value_of (delete_student id) (world_after (delete_student id) w) = true /\
  students (world_after (delete_student id) (world_after (delete_student id) w))
  = students (world_after (delete_student id) w) /\
  value_of (update_student id (Some name) (Some email) (Some phone) age)
    (world_after
       (update_student id (Some name) (Some email) (Some phone) age) w)
  = true /\
  students
    (world_after
       (update_student id (Some name) (Some email) (Some phone) age)
       (world_after
          (update_student id (Some name) (Some email) (Some phone) age) w))
  = students
      (world_after
         (update_student id (Some name) (Some email) (Some phone) age) w).
Proof.
  intros Hw. pose proof (healthy_head 1 w Hw) as H1.
  unfold value_of, world_after.
  rewrite (delete_student_runs w id H1).
  rewrite (update_student_runs w id name email phone age H1). cbn [snd].
  assert (H2 : hd None (tl (faults w)) = None).
  { apply (healthy_head 0 (with_faults (tl (faults w)) w)),
      (healthy_tail 1 w); trivial. }
  rewrite delete_student_runs by exact H2.
  rewrite update_student_runs by exact H2.
  cbn [fst snd students]. repeat split.
  - induction (students w) as [|r rows IH]; simpl; trivial.
    destruct (has_id id r) eqn:E; simpl; rewrite ?E; simpl; congruence.
  - rewrite map_map. apply map_ext. intros r.
    destruct (has_id id r) eqn:E; [|rewrite E; reflexivity].
    unfold has_id in *. cbn [set_fields row_id]. rewrite E. reflexivity.
Qed.

Lemma repeated_write_is_noop_witness :
  healthy 2 three_rows = true /\
  students (world_after (delete_student 2)
                        (world_after (delete_student 2) three_rows))
  = [ada; bob].
Proof.
  split; [reflexivity|].
  destruct (repeated_write_is_noop three_rows 2 "n" "e" "p" None eq_refl)
    as [_ [Hsame _]].
  rewrite Hsame. reflexivity.
Defined.

(** * Further properties of the views *)

Ltac tidy :=
  cbn [faults students sqlite_sequence current_timestamp connections screen
       with_students with_sequence with_faults with_connections with_screen
       fst snd].

Ltac open_page :=
  cbv [view_all_page add_student_page update_student_page delete_student_page
       st_selectbox st_header st_info st_error st_warning st_dataframe render
       bind ret value_of world_after];
  cbn [fst snd].

Section Views.

Lemma selected_id_of_label (id : Z) (name : string) :
  selected_id (option_label (id, name)) = Some id.
Proof.
  unfold selected_id, option_label. cbn [fst snd].
  rewrite split_after_prefix by apply str_no_space. apply int_str.
Qed.

(** The value of the selector is the label of one of the entries. *)
Lemma selectbox_value (p : Z * string) (l : list (Z * string)) (choice : nat) :
  exists q, In q (p :: l) /\
    nth choice (map option_label (p :: l))
        (hd EmptyString (map option_label (p :: l))) = option_label q /\
    ((choice < List.length (p :: l))%nat ->
     q = nth choice (p :: l) (0, EmptyString)).
Proof.
  cbn [map hd]. change (option_label p :: map option_label l)
    with (map option_label (p :: l)).
  rewrite map_nth. exists (nth choice (p :: l) p). split; [|split].
  - destruct (Nat.lt_ge_cases choice (List.length (p :: l))) as [H|H].
    + apply nth_In, H.
    + rewrite nth_overflow by exact H. left. reflexivity.
  - reflexivity.
  - intros H. apply nth_indep, H.
Qed.

(** X10: once its connection is open, the View All page shows below its
    header the table and the count of rows when there are rows, the "No
    students found" notice when there are none, and after a failure of the
    query the error message followed by that same notice; it never changes
    the table. *)
Theorem view_all_page_shows (w : world) :
  screen (world_after view_all_page w)
  = (screen w ++ Header "View All Students" :: view_all_body w)%list /\
  students (world_after view_all_page w) = students w /\
  sqlite_sequence (world_after view_all_page w) = sqlite_sequence w.
Proof.
  destruct w as [rows seq now fs c scr]. unfold view_all_body.
  open_page. run. cbn [faults students].
  destruct (hd None fs) as [e|].
  - cbn. rewrite <- !app_assoc. repeat split.
  - destruct rows as [|r rows].
    + cbn. rewrite <- !app_assoc. repeat split.
    + cbn -[Py.str Z.of_nat String.append len].
      rewrite <- !app_assoc. unfold len. cbn [df_records List.length].
      rewrite length_map. repeat split.
Qed.

(** X11: whatever the names in the list (names that contain " - "
    included) and whatever position is picked, parsing the id out of the
    value of the selector succeeds and gives the id of an entry of the list,
    the entry at the picked position when that position exists: the
    expression [int(selected.split(" - ")[0])] raises no [ValueError]. *)
Theorem selected_label_parses (entries : list (Z * string)) (choice : nat) :
  entries <> [] ->
  exists q, In q entries /\
    selected_id
      (nth choice (map option_label entries)
           (hd EmptyString (map option_label entries))) = Some (fst q) /\
    ((choice < List.length entries)%nat ->
     q = nth choice entries (0, EmptyString)).
Proof.
  destruct entries as [|p l]; [congruence|]. intros _.
  destruct (selectbox_value p l choice) as [q [Hin [-> Hq]]].
  exists q. split; [exact Hin|]. split; [|exact Hq].
  destruct q as [k n]. apply selected_id_of_label.
Qed.

Lemma selected_label_parses_witness :
  [(7, "Ann - Marie"); (8, "4 - Bo")] <> [] /\
  exists q, In q [(7, "Ann - Marie"); (8, "4 - Bo")] /\
    selected_id
      (nth 1 (map option_label [(7, "Ann - Marie"); (8, "4 - Bo")])
           (hd EmptyString
               (map option_label [(7, "Ann - Marie"); (8, "4 - Bo")])))
    = Some (fst q) /\
    ((1 < List.length [(7, "Ann - Marie"); (8, "4 - Bo")])%nat ->
     q = nth 1 [(7, "Ann - Marie"); (8, "4 - Bo")] (0, EmptyString)).
Proof.
  assert (H : [(7, "Ann - Marie"); (8, "4 - Bo")] <> []) by discriminate.
  split; [exact H|].
  exact (selected_label_parses [(7, "Ann - Marie"); (8, "4 - Bo")] 1 H).
Defined.

Lemma healthy_three (w : world) :
  healthy 3 w = true ->
  hd None (faults w) = None /\ hd None (tl (faults w)) = None /\
  hd None (tl (tl (faults w))) = None.
Proof.
  unfold healthy. destruct (faults w) as [|[a|] [|[b|] [|[d|] fs]]];
    simpl; intros H; try discriminate H; repeat split.
Qed.

Lemma listing_length (w : world) :
  List.length (listing w) = List.length (students w).
Proof.
  unfold listing.
  rewrite (Permutation_length (order_by_name_perm _)). apply length_map.
Qed.

Lemma listing_ids (w : world) (q : Z * string) :
  In q (listing w) -> In (fst q) (ids (students w)).
Proof.
  unfold listing, ids. intros H.
  apply (Permutation_in _ (order_by_name_perm _)) in H.
  apply in_map_iff in H. destruct H as [r [<- Hr]].
  apply in_map_iff. exists r. auto.
Qed.

Lemma upd_filled_iff (ui : update_form) :
  upd_filled ui <->
  Py.truthy_str (upd_name ui) && Py.truthy_str (upd_email ui)
  && Py.truthy_str (upd_phone ui) && truthy_age (upd_age ui) = true.
Proof.
  unfold upd_filled, truthy_age, Py.truthy_int.
  rewrite !andb_true_iff, !truthy_str_iff.
  destruct (upd_age ui) as [n|].
  - rewrite negb_true_iff, Z.eqb_neq. split.
    + intros [H1 [H2 [H3 [m [[= <-] Hm]]]]]. auto.
    + intros [[[H1 H2] H3] Hn]. repeat split; trivial. exists n. auto.
  - split.
    + intros [_ [_ [_ [m [H _]]]]]. discriminate H.
    + intros [_ H]. discriminate H.
Qed.

Lemma number_input_accepts (a : option Z) :
  age_in_range a -> number_input_refuses a 1 100 = None.
Proof.
  destruct a as [n|]; [|reflexivity]. cbn. intros [Hlo Hhi].
  destruct (Z.ltb_spec n 1); [lia|]. destruct (Z.ltb_spec 100 n); [lia|].
  reflexivity.
Qed.


(** X12: with a working engine, when the stored age of the picked student
    is one the age widget accepts (no age, or 1 to 100), submitting the
    Update form with all four fields filled updates the student whose entry
    is picked in the selector and no other row: the id parsed back from the
    label is the id of the picked entry, that id is in the table, and the
    table afterwards is the old table with the four fields of that row
    replaced by the form's. *)
Theorem update_page_updates_picked (w : world) (ui : update_form) :
  healthy 3 w = true ->
  (upd_choice ui < List.length (students w))%nat ->
  (forall r, In r (students w) ->
             row_id r = fst (picked (upd_choice ui) w) ->
             age_in_range (row_age r)) ->
  upd_submit_btn ui = true ->
  upd_filled ui ->
  In (fst (picked (upd_choice ui) w)) (ids (students w)) /\
  value_of (update_student_page ui) w = Finished /\
  students (world_after (update_student_page ui) w)
  = map (fun r =>
           if has_id (fst (picked (upd_choice ui) w)) r
           then set_fields (upd_name ui) (upd_email ui) (upd_phone ui)
                           (upd_age ui) r
           else r)
        (students w).
Proof.
  intros Hw Hchoice Hage Hsubmit Hfilled.
  apply upd_filled_iff in Hfilled.
  destruct (healthy_three w Hw) as [H1 [H2 H3]].
  rewrite <- listing_length in Hchoice.
  assert (Hin : In (picked (upd_choice ui) w) (listing w))
    by (apply nth_In, Hchoice).
  pose proof (listing_ids w _ Hin) as Hid.
  split; [exact Hid|].
  unfold picked in *. unfold listing in *.
  destruct w as [rows seq now fs c scr].
  cbn [faults students] in *.
  open_page. rewrite get_all_student_ids_runs by exact H1.
  tidy.
  destruct (order_by_name (map id_and_name rows)) as [|p l] eqn:E;
    [destruct Hin|].
  cbv beta iota.
  destruct (selectbox_value p l (upd_choice ui)) as [q [_ [-> Hq]]].
  rewrite (Hq Hchoice). clear Hq.
  destruct (nth (upd_choice ui) (p :: l) (0, EmptyString)) as [k n].
  cbn [fst] in *. rewrite selected_id_of_label.
  rewrite get_student_by_id_runs by exact H2. tidy.
  destruct (find_present k rows Hid) as [r [Hfind [Hr Hk]]].
  rewrite Hfind. cbn [option_map columns_of fst snd].
  rewrite (number_input_accepts (row_age r) (Hage r Hr Hk)).
  rewrite Hsubmit, Hfilled.
  rewrite update_student_runs by exact H3.
  tidy. split; reflexivity.
Qed.

Lemma update_page_updates_picked_witness :
  healthy 3 three_rows = true /\
  (upd_choice rename_form < List.length (students three_rows))%nat /\
  upd_filled rename_form /\
  ids (students (world_after (update_student_page rename_form) three_rows))
  = [1; 2; 5] /\
  map row_name
      (students (world_after (update_student_page rename_form) three_rows))
  = ["Ada Lovelace"; "Zoe Q"; "Bob"].
Proof.
  assert (Hc : (upd_choice rename_form < List.length (students three_rows))%nat)
    by (cbn; repeat constructor).
  assert (Hf : upd_filled rename_form).
  { repeat split; try discriminate. exists 22. split; [reflexivity|discriminate]. }
  assert (Ha : forall r, In r (students three_rows) ->
                 row_id r = fst (picked (upd_choice rename_form) three_rows) ->
                 age_in_range (row_age r)).
  { intros r [<-|[<-|[<-|[]]]] Hr; cbn in Hr; try discriminate Hr.
    exact I. }
  split; [reflexivity|]. split; [exact Hc|]. split; [exact Hf|].
  destruct (update_page_updates_picked three_rows rename_form eq_refl Hc Ha
              eq_refl Hf) as [_ [_ Hrows]].
  rewrite Hrows. split; reflexivity.
Defined.



(** X13: with a working engine, pressing Confirm on the Delete page deletes
    the student whose entry is picked in the selector and no other row, and
    the run then stops for a rerun. *)
Theorem delete_page_deletes_picked (w : world) (ui : delete_form) :
  healthy 3 w = true ->
  (del_choice ui < List.length (students w))%nat ->
  del_confirm ui = true ->
  In (fst (picked (del_choice ui) w)) (ids (students w)) /\
  value_of (delete_student_page ui) w = Rerun /\
  students (world_after (delete_student_page ui) w)
  = filter (fun r => negb (has_id (fst (picked (del_choice ui) w)) r))
           (students w) /\
  (forall r, In r (students (world_after (delete_student_page ui) w)) <->
             In r (students w) /\
             row_id r <> fst (picked (del_choice ui) w)).
Proof.
  intros Hw Hchoice Hconfirm.
  destruct (healthy_three w Hw) as [H1 [H2 H3]].
  rewrite <- listing_length in Hchoice.
  assert (Hin : In (picked (del_choice ui) w) (listing w))
    by (apply nth_In, Hchoice).
  pose proof (listing_ids w _ Hin) as Hid.
  split; [exact Hid|].
  assert (Hrun :
    value_of (delete_student_page ui) w = Rerun /\
    students (world_after (delete_student_page ui) w)
    = filter (fun r => negb (has_id (fst (picked (del_choice ui) w)) r))
             (students w)).
  { unfold picked in *. unfold listing in *.
    destruct w as [rows seq now fs c scr].
    cbn [faults students] in *.
    open_page. rewrite get_all_student_ids_runs by exact H1. tidy.
    destruct (order_by_name (map id_and_name rows)) as [|p l] eqn:E;
      [destruct Hin|].
    cbv beta iota.
    destruct (selectbox_value p l (del_choice ui)) as [q [_ [-> Hq]]].
    rewrite (Hq Hchoice). clear Hq.
    destruct (nth (del_choice ui) (p :: l) (0, EmptyString)) as [k n].
    cbn [fst] in *. rewrite selected_id_of_label.
    rewrite get_student_by_id_runs by exact H2. tidy.
    destruct (find_present k rows Hid) as [r [-> _]].
    cbn [option_map columns_of fst snd].
    rewrite Hconfirm.
    rewrite delete_student_runs by exact H3.
    tidy. split; reflexivity. }
  destruct Hrun as [Hvalue Hrows]. split; [exact Hvalue|].
  split; [exact Hrows|].
  intros r. rewrite Hrows, filter_In. unfold has_id.
  rewrite negb_true_iff, Z.eqb_neq. tauto.
Qed.

Lemma delete_page_deletes_picked_witness :
  healthy 3 three_rows = true /\
  (del_choice confirm_form < List.length (students three_rows))%nat /\
  students (world_after (delete_student_page confirm_form) three_rows)
  = [ada; zoe].
Proof.
  assert (Hc : (del_choice confirm_form < List.length (students three_rows))%nat)
    by (cbn; repeat constructor).
  split; [reflexivity|]. split; [exact Hc|].
  destruct (delete_page_deletes_picked three_rows confirm_form eq_refl Hc
              eq_refl) as [_ [_ [Hrows _]]].
  rewrite Hrows. reflexivity.
Defined.

(** X14: with a working engine, submitting the Add form with all four
    fields filled appends exactly one row to the table: it carries a new id
    and the four values of the form, and every row that was there stays as
    it was, in place. *)
Theorem add_page_appends_row (w : world) (ui : add_form) :
  healthy 1 w = true ->
  add_submit_btn ui = true ->
  filled ui ->
  value_of (add_student_page ui) w = Finished /\
  ~ In (next_rowid w) (ids (students w)) /\
  students (world_after (add_student_page ui) w)
  = (students w
     ++ [mkRow (next_rowid w) (add_name ui) (add_email ui) (add_phone ui)
               (Some (add_age ui)) (current_timestamp w)])%list.
Proof.
  intros Hw Hsubmit Hfilled. apply healthy_head in Hw.
  apply filled_iff in Hfilled.
  split; [|split; [apply next_rowid_fresh|]].
  - open_page. rewrite Hsubmit, Hfilled.
    destruct (insert_student _ _ _ _ _). reflexivity.
  - destruct w as [rows seq now fs c scr]. cbn [faults] in Hw.
    open_page. rewrite Hsubmit, Hfilled.
    rewrite insert_student_runs by exact Hw. reflexivity.
Qed.

Lemma add_page_appends_row_witness :
  healthy 1 three_rows = true /\
  filled (mkAddForm "Cy" "cy@example.com" "555-0103" 19 true) /\
  ids (students
         (world_after
            (add_student_page
               (mkAddForm "Cy" "cy@example.com" "555-0103" 19 true))
            three_rows))
  = [1; 2; 5; 6].
Proof.
  assert (Hf : filled (mkAddForm "Cy" "cy@example.com" "555-0103" 19 true))
    by (repeat split; discriminate).
  split; [reflexivity|]. split; [exact Hf|].
  destruct (add_page_appends_row three_rows
              (mkAddForm "Cy" "cy@example.com" "555-0103" 19 true)
              eq_refl eq_refl Hf) as [_ [_ Hrows]].
  rewrite Hrows. reflexivity.
Defined.

Ltac unfold_pages :=
  unfold script, view_all_page, add_student_page, update_student_page,
    delete_student_page, st_selectbox, st_title, st_markdown, st_header,
    st_info, st_error, st_warning, st_dataframe.

Ltac quiet :=
  repeat first
    [ apply read_only_ret
    | apply read_only_render
    | apply read_only_create_table
    | apply read_only_view_all_students
    | apply read_only_get_student_by_id
    | apply read_only_get_all_student_ids
    | apply read_only_bind; [|intros]
    | match goal with
      | |- read_only (match ?x with _ => _ end) =>
          destruct x eqn:?; try congruence
      end ].

Ltac keep :=
  repeat first
    [ apply preserves_ret
    | apply preserves_insert_student
    | apply preserves_update_student
    | apply preserves_delete_student
    | solve [apply read_only_preserves; quiet]
    | apply preserves_bind; [|intros]
    | match goal with
      | |- preserves (match ?x with _ => _ end) => destruct x
      end ].

Lemma read_only_view_all_page : read_only view_all_page.
Proof. unfold_pages. quiet. Qed.

Lemma read_only_add_page (ui : add_form) :
  add_submit_btn ui = false \/ ~ filled ui -> read_only (add_student_page ui).
Proof.
  rewrite filled_iff, not_true_iff_false. intros [H|H]; unfold_pages; quiet.
Qed.

Lemma read_only_update_page (ui : update_form) :
  upd_submit_btn ui = false \/ ~ upd_filled ui ->
  read_only (update_student_page ui).
Proof.
  rewrite upd_filled_iff, not_true_iff_false.
  intros [H|H]; unfold_pages; quiet.
Qed.

Lemma read_only_delete_page (ui : delete_form) :
  del_confirm ui = false -> read_only (delete_student_page ui).
Proof. intros H. unfold_pages. quiet. Qed.

(** X15: a run of the script in which no write is asked for (the View All
    page; the Add or Update page without a submit or with an empty field;
    the Delete page without Confirm, Cancel included) never changes a row
    nor the AUTOINCREMENT mark, whether the engine works or fails. *)
Theorem idle_run_changes_nothing (w : world) (ui : widgets) :
  idle ui ->
  students (world_after (script ui) w) = students w /\
  sqlite_sequence (world_after (script ui) w) = sqlite_sequence w.
Proof.
  intros Hidle. revert w. change (read_only (script ui)).
  unfold idle in Hidle. unfold script.
  apply read_only_bind; [apply read_only_create_table|].
  intros [e|[]]; [apply read_only_ret|].
  unfold st_title, st_markdown. do 4 (apply read_only_bind; [quiet|intros _]).
  apply read_only_bind; [|intros o; destruct o; quiet].
  destruct (nav ui).
  - apply read_only_view_all_page.
  - apply read_only_add_page, Hidle.
  - apply read_only_update_page, Hidle.
  - apply read_only_delete_page, Hidle.
Qed.

Lemma idle_run_changes_nothing_witness :
  idle idle_widgets /\
  students (world_after (script idle_widgets) three_rows) = [ada; zoe; bob].
Proof.
  assert (H : idle idle_widgets) by reflexivity.
  split; [exact H|].
  exact (proj1 (idle_run_changes_nothing three_rows idle_widgets H)).
Defined.

(** X16: a run of the script keeps the table well formed, whatever the
    widgets return and whenever the engine fails: afterwards the rows are
    still in strictly increasing id order, no two rows share an id and no id
    is above the AUTOINCREMENT mark. *)
Theorem script_keeps_ids_unique (w : world) (ui : widgets) :
  well_formed w ->
  well_formed (world_after (script ui) w) /\
  NoDup (ids (students (world_after (script ui) w))).
Proof.
  assert (H : preserves (script ui)).
  { unfold_pages. keep. }
  intros Hw. specialize (H w Hw). split; [exact H|].
  apply sorted_nodup, H.
Qed.

Lemma script_keeps_ids_unique_witness :
  well_formed three_rows /\
  NoDup (ids (students
    (world_after
       (script (mkWidgets UpdateStudent no_email_form rename_form confirm_form))
       three_rows))).
Proof.
  split; [exact well_formed_three_rows|].
  exact (proj2 (script_keeps_ids_unique three_rows
                  (mkWidgets UpdateStudent no_email_form rename_form
                             confirm_form) well_formed_three_rows)).
Defined.

(** X17: [create_table] is called with no [try] around it, before anything
    is rendered: when the engine raises [e] on its statement, the run ends
    with that exception, the page stays empty of what the script renders
    and no row changes. *)
Theorem create_table_failure_ends_run (w : world) (ui : widgets) (e : string) :
  hd None (faults w) = Some e ->
  value_of (script ui) w = Crashed e /\
  screen (world_after (script ui) w) = screen w /\
  students (world_after (script ui) w) = students w /\
  sqlite_sequence (world_after (script ui) w) = sqlite_sequence w.
Proof.
  destruct w as [rows seq now fs c scr].
  cbn [faults screen students sqlite_sequence]. intros H.
  cbv [script create_table get_connection next_fault bind ret value_of
       world_after].
  tidy. rewrite H. repeat split.
Qed.

Lemma create_table_failure_ends_run_witness :
  hd None (faults (failing three_rows)) = Some "disk I/O error" /\
  value_of (script idle_widgets) (failing three_rows)
  = Crashed "disk I/O error" /\
  screen (world_after (script idle_widgets) (failing three_rows)) = [].
Proof.
  destruct (create_table_failure_ends_run (failing three_rows) idle_widgets
              "disk I/O error" eq_refl) as [Hvalue [Hscreen _]].
  split; [reflexivity|]. split; [exact Hvalue | exact Hscreen].
Defined.

Lemma option_label_id (p q : Z * string) :
  option_label p = option_label q -> fst p = fst q.
Proof.
  destruct p as [i n], q as [j m]. intros H.
  apply (f_equal selected_id) in H.
  rewrite !selected_id_of_label in H. cbn. congruence.
Qed.

Lemma nodup_map_finer {A B C : Type} (f : A -> B) (g : A -> C) (l : list A) :
  (forall x y, f x = f y -> g x = g y) ->
  NoDup (map g l) -> NoDup (map f l).
Proof.
  intros Hfg. induction l as [|a l IH]; simpl; intros H; [constructor|].
  inversion H as [|? ? Hnotin Hrest]; subst. constructor; [|auto].
  intros Hin. apply Hnotin. apply in_map_iff in Hin.
  destruct Hin as [y [Hy Hl]]. apply in_map_iff. exists y. auto.
Qed.

(** X18: in a well formed table the selector of the Update and Delete pages
    offers one option per row and no option twice, even when students share
    a name: two entries with the same label have the same id. *)
Theorem selector_options_are_distinct (w : world) :
  well_formed w ->
  List.length (map option_label (listing w)) = List.length (students w) /\
  NoDup (map option_label (listing w)).
Proof.
  intros [Hsorted _]. split.
  - rewrite length_map. apply listing_length.
  - apply (nodup_map_finer option_label fst); [apply option_label_id|].
    apply sorted_nodup in Hsorted.
    eapply Permutation_NoDup; [|exact Hsorted].
    unfold listing. apply Permutation_sym.
    rewrite (Permutation_map fst (order_by_name_perm _)).
    unfold ids. rewrite map_map. reflexivity.
Qed.

Lemma selector_options_are_distinct_witness :
  well_formed three_rows /\
  NoDup (map option_label (listing three_rows)).
Proof.
  split; [exact well_formed_three_rows|].
  exact (proj2 (selector_options_are_distinct three_rows
                  well_formed_three_rows)).
Defined.

End Views.

(** * Further properties of the string primitives *)

Section Split.

Variable sep : string.
Hypothesis sep_not_empty : sep <> EmptyString.

Lemma prefix_cut (a s : string) :
  prefix a s = true -> exists rest, s = a ++ rest.
Proof.
  revert s. induction a as [|x a IH]; intros s H.
  - exists s. reflexivity.
  - destruct s as [|y s]; [discriminate H|]. simpl in H.
    destruct (ascii_dec x y) as [<-|_]; [|discriminate H].
    destruct (IH s H) as [rest ->]. exists rest. reflexivity.
Qed.

Lemma split_from_some (k : nat) (s : string) : Py.split_from sep k s <> [].
Proof.
  revert k. induction s as [|c s IH]; intros k; [discriminate|].
  destruct k; [|apply IH].
  rewrite split_from_step.
  destruct (prefix sep (String c s)); [discriminate|].
  destruct (Py.split_from sep 0 s); discriminate.
Qed.

Lemma split_from_skips (u rest : string) :
  Py.split_from sep (String.length u) (u ++ rest) = Py.split_from sep 0 rest.
Proof. induction u as [|c u IH]; simpl; trivial. Qed.

Lemma join_cons_char (c : ascii) (piece : string) (pieces : list string) :
  join sep (String c piece :: pieces) = String c (join sep (piece :: pieces)).
Proof. destruct pieces; reflexivity. Qed.

Lemma length_after (a rest : string) :
  (String.length rest <= String.length (a ++ rest))%nat.
Proof. induction a as [|c a IH]; simpl; lia. Qed.

Lemma join_split_bounded (n : nat) (s : string) :
  (String.length s <= n)%nat -> join sep (Py.split_from sep 0 s) = s.
Proof.
  revert s. induction n as [|n IH]; intros [|c s] Hlen; trivial;
    simpl in Hlen; [lia|].
  rewrite split_from_step.
  destruct (prefix sep (String c s)) eqn:E.
  - destruct (prefix_cut _ _ E) as [rest Hs].
    destruct sep as [|c0 sep'] eqn:Esep; [contradiction|].
    cbn [String.append] in Hs. injection Hs as <- ->.
    replace (String.length (String c sep') - 1)%nat with (String.length sep')
      by (cbn [String.length]; lia).
    rewrite <- Esep in IH |- *. rewrite split_from_skips.
    assert (Hrest : (String.length rest <= n)%nat).
    { pose proof (length_after sep' rest). lia. }
    specialize (IH rest Hrest).
    destruct (Py.split_from sep 0 rest) as [|p ps] eqn:Er;
      [exact (False_ind _ (split_from_some 0 rest Er))|].
    change (join sep (EmptyString :: p :: ps))
      with (EmptyString ++ sep ++ join sep (p :: ps)).
    rewrite IH, Esep. reflexivity.
  - assert (Hs : (String.length s <= n)%nat) by lia.
    specialize (IH s Hs).
    destruct (Py.split_from sep 0 s) as [|p ps] eqn:Er;
      [exact (False_ind _ (split_from_some 0 s Er))|].
    rewrite join_cons_char, IH. reflexivity.
Qed.

End Split.

(** X19: splitting loses nothing: for a non-empty separator, joining the
    pieces of [s.split(sep)] with [sep] gives [s] back, and there is always
    a first piece, so [selected.split(" - ")[0]] cannot fail. *)
Theorem join_split (sep s : string) :
  sep <> EmptyString ->
  join sep (Py.split sep s) = s /\ Py.split sep s <> [].
Proof.
  intros Hsep. split.
  - apply (join_split_bounded sep Hsep (String.length s)). apply Nat.le_refl.
  - apply split_from_some.
Qed.

Lemma join_split_witness :
  " - " <> EmptyString /\
  join " - " ["3"; "Ann"; "Marie"] = "3 - Ann - Marie".
Proof.
  assert (H : " - " <> EmptyString) by discriminate.
  split; [exact H|].
  exact (proj1 (join_split " - " "3 - Ann - Marie" H)).
Defined.
